(** * Masternode-list / quorum diff engine of Dash-Electrum

    A shallow embedding of [electrum_dash/protx_list.py] (classes
    [PartialMerkleTree] and [MNList]) together with the properties its
    specification states about it.

    Python integers are unbounded: they are [Z].  [bytes] objects are lists
    of [byte]; [str] objects are [string].  A Python [dict] is insertion
    ordered, and two places of the code observe that order (a stable sort and
    the first element of a sorted list), so dictionaries are association
    lists with unique keys.  Exceptions are values of a result type. *)

From Stdlib Require Import String Ascii ZArith List Bool Lia DecimalString.
From Stdlib Require Import Init.Byte Sorting.Sorted Sorting.Permutation.
From Stdlib Require Strings.Byte.
From Equations Require Import Equations.
Import ListNotations.

Local Open Scope Z_scope.
Local Open Scope list_scope.

Set Implicit Arguments.

(* ===================================================================== *)
(** ** Bytes                                                              *)
(* ===================================================================== *)

Definition bytes := list byte.

Definition byte_val (b : byte) : Z := Z.of_N (Byte.to_N b).

Definition byte_of_Z (z : Z) : byte :=
  match Byte.of_N (Z.to_N (z mod 256)) with
  | Some b => b
  | None => x00
  end.

Definition byte_eqb (a b : byte) : bool := byte_val a =? byte_val b.

(** [b'\x00' * n] *)
Definition zero_bytes (n : nat) : bytes := repeat x00 n.

(** Python compares [bytes] lexicographically by unsigned byte value; a
    proper prefix is smaller. *)
Fixpoint bytes_compare (a b : bytes) : comparison :=
  match a, b with
  | [], [] => Eq
  | [], _ :: _ => Lt
  | _ :: _, [] => Gt
  | x :: a', y :: b' =>
      match byte_val x ?= byte_val y with
      | Eq => bytes_compare a' b'
      | c => c
      end
  end.

Definition bytes_leb (a b : bytes) : bool :=
  match bytes_compare a b with Gt => false | _ => true end.

Definition bytes_ltb (a b : bytes) : bool :=
  match bytes_compare a b with Lt => true | _ => false end.

Definition bytes_eqb (a b : bytes) : bool :=
  match bytes_compare a b with Eq => true | _ => false end.

(* ===================================================================== *)
(** ** Exceptions                                                         *)
(* ===================================================================== *)

(** The exception classes the embedded code can meet.  All of them derive
    from Python's [Exception]. *)
Inductive exn : Type :=
| ValueError
| IndexError
| KeyError
| TypeError
| AttributeError
| OSError
| UnboundLocalError
| SerializationError
| MerkleVerificationFailure.

Inductive result (A : Type) : Type :=
| Ok (a : A)
| Raise (e : exn).

Arguments Ok {A} a.
Arguments Raise {A} e.

Definition bind {A B : Type} (m : result A) (k : A -> result B) : result B :=
  match m with
  | Ok a => k a
  | Raise e => Raise e
  end.

Notation "x <- m ;; k" := (bind m (fun x => k))
  (at level 61, m at next level, right associativity).

Fixpoint mapM {A B : Type} (f : A -> result B) (l : list A)
  : result (list B) :=
  match l with
  | [] => Ok []
  | a :: l' => b <- f a ;; bs <- mapM f l' ;; Ok (b :: bs)
  end.

(* ===================================================================== *)
(** ** Hexadecimal helpers of [util]                                      *)
(* ===================================================================== *)

Definition hex_digits : string := "0123456789abcdef".

(** The digit of a value below sixteen. *)
Definition hex_digit (n : Z) : ascii :=
  match String.get (Z.to_nat n) hex_digits with
  | Some c => if n <? 0 then "f"%char else c
  | None => "f"%char
  end.

Definition hex_value (c : ascii) : option Z :=
  let n := Z.of_nat (nat_of_ascii c) in
  if (48 <=? n) && (n <=? 57) then Some (n - 48)
  else if (97 <=? n) && (n <=? 102) then Some (n - 87)
  else if (65 <=? n) && (n <=? 70) then Some (n - 55)
  else None.

(** Modelled from the spec: [util.bh2u] is not among the sources; the spec
    speaks of hex-encoded values, and the helper is [bytes.hex], two
    lower-case digits per byte. *)
Fixpoint bh2u (b : bytes) : string :=
  match b with
  | [] => EmptyString
  | x :: b' =>
      String (hex_digit (byte_val x / 16))
        (String (hex_digit (byte_val x mod 16)) (bh2u b'))
  end.

Definition is_space (c : ascii) : bool :=
  let n := Z.of_nat (nat_of_ascii c) in
  (n =? 32) || ((9 <=? n) && (n <=? 13)).

(** Modelled from the spec: [util.bfh] is not among the sources; it is
    [bytes.fromhex], which reads two hex digits per byte, skips ASCII
    whitespace between bytes and raises [ValueError] on anything else. *)
Fixpoint bfh (s : string) : result bytes :=
  match s with
  | EmptyString => Ok []
  | String c s' =>
      if is_space c then bfh s'
      else
        match s' with
        | EmptyString => Raise ValueError
        | String d s'' =>
            match hex_value c, hex_value d with
            | Some h, Some l =>
                r <- bfh s'' ;; Ok (byte_of_Z (16 * h + l) :: r)
            | _, _ => Raise ValueError
            end
        end
  end.

Fixpoint ascii_bytes (s : string) : bytes :=
  match s with
  | EmptyString => []
  | String c s' => byte_of_Z (Z.of_nat (nat_of_ascii c)) :: ascii_bytes s'
  end.

(** Modelled from the spec: [util.hfu] is not among the sources; it is
    [binascii.hexlify], the hex digits of its argument as a [bytes]
    object. *)
Definition hfu (b : bytes) : bytes := ascii_bytes (bh2u b).

(* ===================================================================== *)
(** ** SHA-256 and [crypto.sha256d]                                       *)
(* ===================================================================== *)

Module SHA256.

Definition w32 (x : Z) : Z := x mod 2 ^ 32.

Definition add32 (x y : Z) : Z := w32 (x + y).

Definition rotr (n x : Z) : Z :=
  Z.lor (Z.shiftr x n) (w32 (Z.shiftl x (32 - n))).

Definition ch (x y z : Z) : Z :=
  Z.lxor (Z.land x y) (Z.land (Z.lxor x (2 ^ 32 - 1)) z).

Definition maj (x y z : Z) : Z :=
  Z.lxor (Z.lxor (Z.land x y) (Z.land x z)) (Z.land y z).

Definition bsig0 (x : Z) : Z :=
  Z.lxor (Z.lxor (rotr 2 x) (rotr 13 x)) (rotr 22 x).

Definition bsig1 (x : Z) : Z :=
  Z.lxor (Z.lxor (rotr 6 x) (rotr 11 x)) (rotr 25 x).

Definition ssig0 (x : Z) : Z :=
  Z.lxor (Z.lxor (rotr 7 x) (rotr 18 x)) (Z.shiftr x 3).

Definition ssig1 (x : Z) : Z :=
  Z.lxor (Z.lxor (rotr 17 x) (rotr 19 x)) (Z.shiftr x 10).

(** The round constants are the first 32 fractional bits of the cube
    roots of the first 64 primes, the initial state those of the square
    roots of the first 8; both are computed rather than tabulated. *)
Definition is_prime (n : Z) : bool :=
  forallb (fun d => negb (n mod d =? 0))
    (map Z.of_nat (seq 2 (Z.to_nat (Z.sqrt n) - 1))).

Definition first_primes (k : nat) : list Z :=
  firstn k (filter is_prime (map Z.of_nat (seq 2 400))).

(** Largest [r] in [lo, hi) with [r^3 <= n], by bisection. *)
Fixpoint cube_root_between (fuel : nat) (n lo hi : Z) : Z :=
  match fuel with
  | O => lo
  | S fuel' =>
      if hi - lo <=? 1 then lo
      else
        let mid := (lo + hi) / 2 in
        if mid * mid * mid <=? n
        then cube_root_between fuel' n mid hi
        else cube_root_between fuel' n lo mid
  end.

Definition cube_root (n : Z) : Z := cube_root_between 64 n 0 (2 ^ 40).

Definition round_constants : list Z :=
  Eval vm_compute in
    map (fun p => w32 (cube_root (p * 2 ^ 96))) (first_primes 64).

Definition initial_state : list Z :=
  Eval vm_compute in
    map (fun p => w32 (Z.sqrt (p * 2 ^ 64))) (first_primes 8).

(** Big-endian encoding of [z] on [n] bytes. *)
Fixpoint be_bytes (n : nat) (z : Z) : bytes :=
  match n with
  | O => []
  | S n' => byte_of_Z (Z.shiftr z (8 * Z.of_nat n')) :: be_bytes n' z
  end.

Fixpoint be_words (fuel : nat) (b : bytes) : list Z :=
  match fuel, b with
  | S fuel', b0 :: b1 :: b2 :: b3 :: rest =>
      (((byte_val b0 * 256 + byte_val b1) * 256 + byte_val b2) * 256
       + byte_val b3) :: be_words fuel' rest
  | _, _ => []
  end.

Definition pad (msg : bytes) : bytes :=
  let len := Z.of_nat (length msg) in
  let k := (55 - len) mod 64 in
  msg ++ [x80] ++ zero_bytes (Z.to_nat k) ++ be_bytes 8 (8 * len).

(** The message schedule, newest word first. *)
Fixpoint extend (n : nat) (rw : list Z) : list Z :=
  match n with
  | O => rw
  | S n' =>
      let wt :=
        add32 (add32 (ssig1 (nth 1 rw 0)) (nth 6 rw 0))
              (add32 (ssig0 (nth 14 rw 0)) (nth 15 rw 0)) in
      extend n' (wt :: rw)
  end.

Definition schedule (block : list Z) : list Z :=
  rev (extend 48 (rev block)).

Definition round (s : list Z) (kw : Z * Z) : list Z :=
  match s with
  | [a; b; c; d; e; f; g; h] =>
      let t1 :=
        add32 (add32 (add32 h (bsig1 e)) (add32 (ch e f g) (fst kw)))
              (snd kw) in
      let t2 := add32 (bsig0 a) (maj a b c) in
      [add32 t1 t2; a; b; c; add32 d t1; e; f; g]
  | _ => s
  end.

Definition compress (h : list Z) (block : list Z) : list Z :=
  let s := fold_left round (combine round_constants (schedule block)) h in
  map (fun p => add32 (fst p) (snd p)) (combine h s).

Fixpoint blocks (fuel : nat) (ws : list Z) : list (list Z) :=
  match fuel, ws with
  | _, [] => []
  | O, _ => []
  | S fuel', _ => firstn 16 ws :: blocks fuel' (skipn 16 ws)
  end.

Definition sha256 (msg : bytes) : bytes :=
  let p := pad msg in
  let ws := be_words (length p) p in
  let h := fold_left compress (blocks (length ws) ws) initial_state in
  flat_map (be_bytes 4) h.

End SHA256.

(** Modelled from the spec: [crypto.sha256d] is not among the sources; the
    spec names the hash SHA-256d, SHA-256 applied twice. *)
Definition sha256d (x : bytes) : bytes := SHA256.sha256 (SHA256.sha256 x).


(* ===================================================================== *)
(** ** Python dictionaries and [sorted]                                   *)
(* ===================================================================== *)

Section Dict.

Variable V : Type.

(** Keys are unique; the order is the insertion order. *)
Definition dict := list (string * V).

Fixpoint dict_get (d : dict) (k : string) : option V :=
  match d with
  | [] => None
  | (k', v) :: d' => if String.eqb k k' then Some v else dict_get d' k
  end.

(** [k in d] *)
Definition dict_mem (d : dict) (k : string) : bool :=
  match dict_get d k with Some _ => true | None => false end.

(** [del d[k]], for a key that is present; no effect otherwise. *)
Fixpoint dict_del (d : dict) (k : string) : dict :=
  match d with
  | [] => []
  | (k', v) :: d' =>
      if String.eqb k k' then d' else (k', v) :: dict_del d' k
  end.

(** [d[k] = v]: an existing key keeps its place, a new one goes last. *)
Fixpoint dict_set (d : dict) (k : string) (v : V) : dict :=
  match d with
  | [] => [(k, v)]
  | (k', v') :: d' =>
      if String.eqb k k' then (k', v) :: d' else (k', v') :: dict_set d' k v
  end.

Definition dict_keys (d : dict) : list string := map fst d.
Definition dict_values (d : dict) : list V := map snd d.
Definition dict_items (d : dict) : list (string * V) := d.

End Dict.

Section Sorted.

Variable A : Type.
Variable key : A -> bytes.

(** [sorted(l, key=key)] compares keys with [<] only and is stable: of
    two elements with equal keys the one that came first stays first.
    The output of a stable sort is determined by its input, so a stable
    insertion sort computes it. *)
Fixpoint sorted_insert (x : A) (l : list A) : list A :=
  match l with
  | [] => [x]
  | y :: l' =>
      if bytes_ltb (key y) (key x) then y :: sorted_insert x l'
      else x :: y :: l'
  end.

Definition sorted (l : list A) : list A := fold_right sorted_insert [] l.

End Sorted.

(* ===================================================================== *)
(** ** Messages of [dash_msg] and [transaction]                           *)
(* ===================================================================== *)

(** The classes below are declared outside the embedded module; a record
    carries the attributes and the method results that [MNList] reads. *)

Record DashSMLEntry : Type := {
  proRegTxHash : bytes;
  isValid : bool;
  sml_serialize : bytes          (* [sml_entry.serialize()] *)
}.

Record DashQFCommitMsg : Type := {
  llmqType : byte;               (* an unsigned char on the wire *)
  quorumHash : bytes;
  qf_serialize : bytes           (* [q.serialize()] *)
}.

Record DashCbTx : Type := {
  cb_version : Z;
  cb_height : Z;
  merkleRootMNList : bytes;
  merkleRootQuorums : bytes
}.

Record Transaction : Type := {
  tx_version : Z;
  tx_type : Z;
  extra_payload : DashCbTx;
  txid : string                  (* [cbtx.txid()] *)
}.

(* ===================================================================== *)
(** ** Merkle roots                                                       *)
(* ===================================================================== *)

(** One level of the tree: [sha256d(hashes[2i] + hashes[2i+1])] for [i]
    below [len(hashes) // 2]. *)
Fixpoint pair_up (hashes : list bytes) : list bytes :=
  match hashes with
  | a :: b :: rest => sha256d (a ++ b) :: pair_up rest
  | _ => []
  end.

(** [if hashes_len % 2 == 1: hashes.append(hashes[-1])] *)
Definition dup_last (hashes : list bytes) : list bytes :=
  if Nat.odd (length hashes) then hashes ++ [last hashes []] else hashes.

Lemma pair_up_length (l : list bytes) :
  (2 * length (pair_up l) <= length l)%nat.
Proof.
  induction l as [l IH] using (well_founded_induction
                                 (Wf_nat.well_founded_ltof _ (@length bytes))).
  destruct l as [|a [|b r]]; simpl; try lia.
  assert (H : (2 * length (pair_up r) <= length r)%nat).
  { apply IH. unfold Wf_nat.ltof. simpl. lia. }
  lia.
Qed.

Lemma dup_last_length (l : list bytes) :
  (length (dup_last l) <= S (length l))%nat.
Proof.
  unfold dup_last. destruct (Nat.odd (length l)).
  - rewrite length_app. simpl. lia.
  - lia.
Qed.

(** The [while True] loop of [calc_merkle_root].  It is entered with a
    non-empty list only (an empty argument has been replaced by the
    placeholder before), and a level of two or more hashes is followed by
    a non-empty one, so the first clause is never reached from
    [calc_merkle_root]. *)
Equations? merkle_loop (hashes : list bytes) : list bytes
  by wf (length hashes) lt :=
  merkle_loop [] := [];
  merkle_loop [h] := [h];
  merkle_loop (a :: b :: rest) := merkle_loop (pair_up (dup_last (a :: b :: rest))).
Proof.
  pose proof (pair_up_length (dup_last (a :: b :: rest))) as H1.
  pose proof (dup_last_length (a :: b :: rest)) as H2.
  simpl in *. lia.
Qed.

Definition calc_merkle_root (hashes : list bytes) : bytes :=
  let hashes := match hashes with [] => [zero_bytes 32] | _ => hashes end in
  hfu (rev (hd [] (merkle_loop hashes))).

(** [check_sml_merkle_root]: the content hashes in the order of
    [sorted(sml_hashes_dict.items(), key=lambda x: bfh(x[0])[::-1])].
    Python computes every key before it sorts, so a key that is not a hex
    string raises before anything is compared. *)
Definition sml_sort_key (item : string * bytes) : result bytes :=
  b <- bfh (fst item) ;; Ok (rev b).

Definition sml_sorted_hashes (sml_hashes_dict : dict bytes)
  : result (list bytes) :=
  decorated <- mapM (fun item => k <- sml_sort_key item ;; Ok (k, item))
                    (dict_items sml_hashes_dict) ;;
  Ok (map (fun d => snd (snd d)) (sorted (@fst bytes _) decorated)).

Definition check_sml_merkle_root (sml_hashes_dict : dict bytes)
           (cbtx_extra : DashCbTx) : result bool :=
  sml_hashes <- sml_sorted_hashes sml_hashes_dict ;;
  let mr_calculated := calc_merkle_root sml_hashes in
  let mr_cbtx := hfu (rev (merkleRootMNList cbtx_extra)) in
  if negb (bytes_eqb mr_calculated mr_cbtx) then Ok false else Ok true.

(** [check_llmq_merkle_root]: [sorted(llmq_hashes_dict.values())]. *)
Definition llmq_sorted_hashes (llmq_hashes_dict : dict bytes) : list bytes :=
  sorted (fun h => h) (dict_values llmq_hashes_dict).

Definition check_llmq_merkle_root (llmq_hashes_dict : dict bytes)
           (cbtx_extra : DashCbTx) : bool :=
  let llmq_hashes := llmq_sorted_hashes llmq_hashes_dict in
  let mr_calculated := calc_merkle_root llmq_hashes in
  let mr_cbtx := hfu (rev (merkleRootQuorums cbtx_extra)) in
  if negb (bytes_eqb mr_calculated mr_cbtx) then false else true.

(* ===================================================================== *)
(** ** [PartialMerkleTree]                                                *)
(* ===================================================================== *)

(** [transaction.BCDataStream] is declared outside the embedded module;
    the reader is abstract in its read operations. *)
Class BCDataStream (S : Type) : Type := {
  vds_write : bytes -> S;
  read_uint32 : S -> result (Z * S);
  read_compact_size : S -> result (Z * S);
  read_bytes : S -> Z -> result (bytes * S);
  read_uchar : S -> result (Z * S);
  can_read_more : S -> bool
}.

Record PartialMerkleTree : Type := {
  pmt_total : Z;
  pmt_hashes : list string;
  pmt_flags : list Z
}.

Section PartialMerkleTree.

Context {S : Type} `{BCDataStream S}.

Fixpoint read_pmt_hashes (n : nat) (vds : S) : result (list string * S) :=
  match n with
  | O => Ok ([], vds)
  | Datatypes.S n' =>
      r <- read_bytes vds 32 ;;
      rest <- read_pmt_hashes n' (snd r) ;;
      Ok (bh2u (rev (fst r)) :: fst rest, snd rest)
  end.

Definition flag_bits (flags_n : Z) : list Z :=
  map (fun i => Z.land (Z.shiftr flags_n (Z.of_nat i)) 1) (seq 0 8).

Fixpoint read_pmt_flags (n : nat) (vds : S) : result (list Z * S) :=
  match n with
  | O => Ok ([], vds)
  | Datatypes.S n' =>
      r <- read_uchar vds ;;
      rest <- read_pmt_flags n' (snd r) ;;
      Ok (flag_bits (fst r) ++ fst rest, snd rest)
  end.

(** [PartialMerkleTree.read_bytes] *)
Definition pmt_read_bytes (raw_bytes : bytes) : result PartialMerkleTree :=
  let vds := vds_write raw_bytes in
  t <- read_uint32 vds ;;
  nh <- read_compact_size (snd t) ;;
  hs <- read_pmt_hashes (Z.to_nat (fst nh)) (snd nh) ;;
  nf <- read_compact_size (snd hs) ;;
  fl <- read_pmt_flags (Z.to_nat (fst nf)) (snd nf) ;;
  if can_read_more (snd fl) then Raise SerializationError
  else Ok {| pmt_total := fst t; pmt_hashes := fst hs; pmt_flags := fst fl |}.

End PartialMerkleTree.

(* ===================================================================== *)
(** ** The engine state                                                   *)
(* ===================================================================== *)

(** JSON documents, as [json.loads] returns them. *)
#[local] Unset Elimination Schemes.
Inductive json : Type :=
| JNull
| JBool (b : bool)
| JInt (n : Z)
| JStr (s : string)
| JList (l : list json)
| JDict (d : list (string * json)).
#[local] Set Elimination Schemes.

(** A value of the [recent_list] dictionary: a JSON value as loaded, or one
    of the four maps after conversion from hex strings. *)
Inductive rl_value : Type :=
| RLjson (j : json)
| RLmns (d : dict DashSMLEntry)
| RLhashes (d : dict bytes)
| RLquorums (d : dict DashQFCommitMsg).

(** [self.recent_list] is either the module-level [DEFAULT_MN_LIST] object
    itself (which [_read_recent_list] returns when it loads nothing) or a
    dictionary of its own, built by [json.loads]. *)
Inductive rl_ref : Type :=
| RefDefault
| RefOwn (d : dict rl_value).

Record Header : Type := {
  hdr_merkle_root : option string   (* [cbtx_header['merkle_root']] *)
}.

(** [self.network], read at one instant.  The constructor of [MNList]
    dereferences its [network] argument, so the attribute holds an object;
    [network_bool] is its truth value, which the readiness properties
    test. *)
Record Network : Type := {
  network_bool : bool;
  get_local_height : Z;
  get_server_height : Z;
  read_header : Z -> option Header  (* [blockchain().read_header] *)
}.

Definition DIP3_DISABLED : Z := 0.
Definition DIP3_ENABLED : Z := 1.
Definition DIP3_UNKNOWN : Z := 2.
Definition LLMQ_OFFSET : Z := 8.

Record MNList : Type := {
  network : Network;
  config_path : option string;
  dash_net_enabled : bool;
  load_mns : bool;
  recent_list : rl_ref;
  protx_info : dict json;
  last_protx_info_save_time : Z;
  mns_outpoints : dict string;
  protx_height : Z;
  llmq_height : Z;
  protx_mns : dict DashSMLEntry;
  sml_hashes : dict bytes;
  quorums : dict DashQFCommitMsg;
  llmq_hashes : dict bytes;
  protx_state : Z;
  diff_deleted_mns : list string;
  diff_hashes : list string;
  info_hash : string;
  sent_getmnlistd : option (Z * Z);   (* [asyncio.Queue(1)] *)
  sent_protx_diff : option (Z * Z);   (* [asyncio.Queue(1)] *)
  blockchain_loaded : bool;
  wallets_updated : bool
}.

(** Attribute assignment, [self.x = v]. *)
Definition set_recent_list v (self : MNList) : MNList :=
  {| network := network self;
     config_path := config_path self;
     dash_net_enabled := dash_net_enabled self;
     load_mns := load_mns self;
     recent_list := v;
     protx_info := protx_info self;
     last_protx_info_save_time := last_protx_info_save_time self;
     mns_outpoints := mns_outpoints self;
     protx_height := protx_height self;
     llmq_height := llmq_height self;
     protx_mns := protx_mns self;
     sml_hashes := sml_hashes self;
     quorums := quorums self;
     llmq_hashes := llmq_hashes self;
     protx_state := protx_state self;
     diff_deleted_mns := diff_deleted_mns self;
     diff_hashes := diff_hashes self;
     info_hash := info_hash self;
     sent_getmnlistd := sent_getmnlistd self;
     sent_protx_diff := sent_protx_diff self;
     blockchain_loaded := blockchain_loaded self;
     wallets_updated := wallets_updated self |}.

Definition set_protx_info v (self : MNList) : MNList :=
  {| network := network self;
     config_path := config_path self;
     dash_net_enabled := dash_net_enabled self;
     load_mns := load_mns self;
     recent_list := recent_list self;
     protx_info := v;
     last_protx_info_save_time := last_protx_info_save_time self;
     mns_outpoints := mns_outpoints self;
     protx_height := protx_height self;
     llmq_height := llmq_height self;
     protx_mns := protx_mns self;
     sml_hashes := sml_hashes self;
     quorums := quorums self;
     llmq_hashes := llmq_hashes self;
     protx_state := protx_state self;
     diff_deleted_mns := diff_deleted_mns self;
     diff_hashes := diff_hashes self;
     info_hash := info_hash self;
     sent_getmnlistd := sent_getmnlistd self;
     sent_protx_diff := sent_protx_diff self;
     blockchain_loaded := blockchain_loaded self;
     wallets_updated := wallets_updated self |}.

Definition set_last_protx_info_save_time v (self : MNList) : MNList :=
  {| network := network self;
     config_path := config_path self;
     dash_net_enabled := dash_net_enabled self;
     load_mns := load_mns self;
     recent_list := recent_list self;
     protx_info := protx_info self;
     last_protx_info_save_time := v;
     mns_outpoints := mns_outpoints self;
     protx_height := protx_height self;
     llmq_height := llmq_height self;
     protx_mns := protx_mns self;
     sml_hashes := sml_hashes self;
     quorums := quorums self;
     llmq_hashes := llmq_hashes self;
     protx_state := protx_state self;
     diff_deleted_mns := diff_deleted_mns self;
     diff_hashes := diff_hashes self;
     info_hash := info_hash self;
     sent_getmnlistd := sent_getmnlistd self;
     sent_protx_diff := sent_protx_diff self;
     blockchain_loaded := blockchain_loaded self;
     wallets_updated := wallets_updated self |}.

Definition set_mns_outpoints v (self : MNList) : MNList :=
  {| network := network self;
     config_path := config_path self;
     dash_net_enabled := dash_net_enabled self;
     load_mns := load_mns self;
     recent_list := recent_list self;
     protx_info := protx_info self;
     last_protx_info_save_time := last_protx_info_save_time self;
     mns_outpoints := v;
     protx_height := protx_height self;
     llmq_height := llmq_height self;
     protx_mns := protx_mns self;
     sml_hashes := sml_hashes self;
     quorums := quorums self;
     llmq_hashes := llmq_hashes self;
     protx_state := protx_state self;
     diff_deleted_mns := diff_deleted_mns self;
     diff_hashes := diff_hashes self;
     info_hash := info_hash self;
     sent_getmnlistd := sent_getmnlistd self;
     sent_protx_diff := sent_protx_diff self;
     blockchain_loaded := blockchain_loaded self;
     wallets_updated := wallets_updated self |}.

Definition set_protx_height v (self : MNList) : MNList :=
  {| network := network self;
     config_path := config_path self;
     dash_net_enabled := dash_net_enabled self;
     load_mns := load_mns self;
     recent_list := recent_list self;
     protx_info := protx_info self;
     last_protx_info_save_time := last_protx_info_save_time self;
     mns_outpoints := mns_outpoints self;
     protx_height := v;
     llmq_height := llmq_height self;
     protx_mns := protx_mns self;
     sml_hashes := sml_hashes self;
     quorums := quorums self;
     llmq_hashes := llmq_hashes self;
     protx_state := protx_state self;
     diff_deleted_mns := diff_deleted_mns self;
     diff_hashes := diff_hashes self;
     info_hash := info_hash self;
     sent_getmnlistd := sent_getmnlistd self;
     sent_protx_diff := sent_protx_diff self;
     blockchain_loaded := blockchain_loaded self;
     wallets_updated := wallets_updated self |}.

Definition set_llmq_height v (self : MNList) : MNList :=
  {| network := network self;
     config_path := config_path self;
     dash_net_enabled := dash_net_enabled self;
     load_mns := load_mns self;
     recent_list := recent_list self;
     protx_info := protx_info self;
     last_protx_info_save_time := last_protx_info_save_time self;
     mns_outpoints := mns_outpoints self;
     protx_height := protx_height self;
     llmq_height := v;
     protx_mns := protx_mns self;
     sml_hashes := sml_hashes self;
     quorums := quorums self;
     llmq_hashes := llmq_hashes self;
     protx_state := protx_state self;
     diff_deleted_mns := diff_deleted_mns self;
     diff_hashes := diff_hashes self;
     info_hash := info_hash self;
     sent_getmnlistd := sent_getmnlistd self;
     sent_protx_diff := sent_protx_diff self;
     blockchain_loaded := blockchain_loaded self;
     wallets_updated := wallets_updated self |}.

Definition set_protx_mns v (self : MNList) : MNList :=
  {| network := network self;
     config_path := config_path self;
     dash_net_enabled := dash_net_enabled self;
     load_mns := load_mns self;
     recent_list := recent_list self;
     protx_info := protx_info self;
     last_protx_info_save_time := last_protx_info_save_time self;
     mns_outpoints := mns_outpoints self;
     protx_height := protx_height self;
     llmq_height := llmq_height self;
     protx_mns := v;
     sml_hashes := sml_hashes self;
     quorums := quorums self;
     llmq_hashes := llmq_hashes self;
     protx_state := protx_state self;
     diff_deleted_mns := diff_deleted_mns self;
     diff_hashes := diff_hashes self;
     info_hash := info_hash self;
     sent_getmnlistd := sent_getmnlistd self;
     sent_protx_diff := sent_protx_diff self;
     blockchain_loaded := blockchain_loaded self;
     wallets_updated := wallets_updated self |}.

Definition set_sml_hashes v (self : MNList) : MNList :=
  {| network := network self;
     config_path := config_path self;
     dash_net_enabled := dash_net_enabled self;
     load_mns := load_mns self;
     recent_list := recent_list self;
     protx_info := protx_info self;
     last_protx_info_save_time := last_protx_info_save_time self;
     mns_outpoints := mns_outpoints self;
     protx_height := protx_height self;
     llmq_height := llmq_height self;
     protx_mns := protx_mns self;
     sml_hashes := v;
     quorums := quorums self;
     llmq_hashes := llmq_hashes self;
     protx_state := protx_state self;
     diff_deleted_mns := diff_deleted_mns self;
     diff_hashes := diff_hashes self;
     info_hash := info_hash self;
     sent_getmnlistd := sent_getmnlistd self;
     sent_protx_diff := sent_protx_diff self;
     blockchain_loaded := blockchain_loaded self;
     wallets_updated := wallets_updated self |}.

Definition set_quorums v (self : MNList) : MNList :=
  {| network := network self;
     config_path := config_path self;
     dash_net_enabled := dash_net_enabled self;
     load_mns := load_mns self;
     recent_list := recent_list self;
     protx_info := protx_info self;
     last_protx_info_save_time := last_protx_info_save_time self;
     mns_outpoints := mns_outpoints self;
     protx_height := protx_height self;
     llmq_height := llmq_height self;
     protx_mns := protx_mns self;
     sml_hashes := sml_hashes self;
     quorums := v;
     llmq_hashes := llmq_hashes self;
     protx_state := protx_state self;
     diff_deleted_mns := diff_deleted_mns self;
     diff_hashes := diff_hashes self;
     info_hash := info_hash self;
     sent_getmnlistd := sent_getmnlistd self;
     sent_protx_diff := sent_protx_diff self;
     blockchain_loaded := blockchain_loaded self;
     wallets_updated := wallets_updated self |}.

Definition set_llmq_hashes v (self : MNList) : MNList :=
  {| network := network self;
     config_path := config_path self;
     dash_net_enabled := dash_net_enabled self;
     load_mns := load_mns self;
     recent_list := recent_list self;
     protx_info := protx_info self;
     last_protx_info_save_time := last_protx_info_save_time self;
     mns_outpoints := mns_outpoints self;
     protx_height := protx_height self;
     llmq_height := llmq_height self;
     protx_mns := protx_mns self;
     sml_hashes := sml_hashes self;
     quorums := quorums self;
     llmq_hashes := v;
     protx_state := protx_state self;
     diff_deleted_mns := diff_deleted_mns self;
     diff_hashes := diff_hashes self;
     info_hash := info_hash self;
     sent_getmnlistd := sent_getmnlistd self;
     sent_protx_diff := sent_protx_diff self;
     blockchain_loaded := blockchain_loaded self;
     wallets_updated := wallets_updated self |}.

Definition set_protx_state v (self : MNList) : MNList :=
  {| network := network self;
     config_path := config_path self;
     dash_net_enabled := dash_net_enabled self;
     load_mns := load_mns self;
     recent_list := recent_list self;
     protx_info := protx_info self;
     last_protx_info_save_time := last_protx_info_save_time self;
     mns_outpoints := mns_outpoints self;
     protx_height := protx_height self;
     llmq_height := llmq_height self;
     protx_mns := protx_mns self;
     sml_hashes := sml_hashes self;
     quorums := quorums self;
     llmq_hashes := llmq_hashes self;
     protx_state := v;
     diff_deleted_mns := diff_deleted_mns self;
     diff_hashes := diff_hashes self;
     info_hash := info_hash self;
     sent_getmnlistd := sent_getmnlistd self;
     sent_protx_diff := sent_protx_diff self;
     blockchain_loaded := blockchain_loaded self;
     wallets_updated := wallets_updated self |}.

Definition set_diff_deleted_mns v (self : MNList) : MNList :=
  {| network := network self;
     config_path := config_path self;
     dash_net_enabled := dash_net_enabled self;
     load_mns := load_mns self;
     recent_list := recent_list self;
     protx_info := protx_info self;
     last_protx_info_save_time := last_protx_info_save_time self;
     mns_outpoints := mns_outpoints self;
     protx_height := protx_height self;
     llmq_height := llmq_height self;
     protx_mns := protx_mns self;
     sml_hashes := sml_hashes self;
     quorums := quorums self;
     llmq_hashes := llmq_hashes self;
     protx_state := protx_state self;
     diff_deleted_mns := v;
     diff_hashes := diff_hashes self;
     info_hash := info_hash self;
     sent_getmnlistd := sent_getmnlistd self;
     sent_protx_diff := sent_protx_diff self;
     blockchain_loaded := blockchain_loaded self;
     wallets_updated := wallets_updated self |}.

Definition set_diff_hashes v (self : MNList) : MNList :=
  {| network := network self;
     config_path := config_path self;
     dash_net_enabled := dash_net_enabled self;
     load_mns := load_mns self;
     recent_list := recent_list self;
     protx_info := protx_info self;
     last_protx_info_save_time := last_protx_info_save_time self;
     mns_outpoints := mns_outpoints self;
     protx_height := protx_height self;
     llmq_height := llmq_height self;
     protx_mns := protx_mns self;
     sml_hashes := sml_hashes self;
     quorums := quorums self;
     llmq_hashes := llmq_hashes self;
     protx_state := protx_state self;
     diff_deleted_mns := diff_deleted_mns self;
     diff_hashes := v;
     info_hash := info_hash self;
     sent_getmnlistd := sent_getmnlistd self;
     sent_protx_diff := sent_protx_diff self;
     blockchain_loaded := blockchain_loaded self;
     wallets_updated := wallets_updated self |}.

Definition set_info_hash v (self : MNList) : MNList :=
  {| network := network self;
     config_path := config_path self;
     dash_net_enabled := dash_net_enabled self;
     load_mns := load_mns self;
     recent_list := recent_list self;
     protx_info := protx_info self;
     last_protx_info_save_time := last_protx_info_save_time self;
     mns_outpoints := mns_outpoints self;
     protx_height := protx_height self;
     llmq_height := llmq_height self;
     protx_mns := protx_mns self;
     sml_hashes := sml_hashes self;
     quorums := quorums self;
     llmq_hashes := llmq_hashes self;
     protx_state := protx_state self;
     diff_deleted_mns := diff_deleted_mns self;
     diff_hashes := diff_hashes self;
     info_hash := v;
     sent_getmnlistd := sent_getmnlistd self;
     sent_protx_diff := sent_protx_diff self;
     blockchain_loaded := blockchain_loaded self;
     wallets_updated := wallets_updated self |}.

Definition set_sent_getmnlistd v (self : MNList) : MNList :=
  {| network := network self;
     config_path := config_path self;
     dash_net_enabled := dash_net_enabled self;
     load_mns := load_mns self;
     recent_list := recent_list self;
     protx_info := protx_info self;
     last_protx_info_save_time := last_protx_info_save_time self;
     mns_outpoints := mns_outpoints self;
     protx_height := protx_height self;
     llmq_height := llmq_height self;
     protx_mns := protx_mns self;
     sml_hashes := sml_hashes self;
     quorums := quorums self;
     llmq_hashes := llmq_hashes self;
     protx_state := protx_state self;
     diff_deleted_mns := diff_deleted_mns self;
     diff_hashes := diff_hashes self;
     info_hash := info_hash self;
     sent_getmnlistd := v;
     sent_protx_diff := sent_protx_diff self;
     blockchain_loaded := blockchain_loaded self;
     wallets_updated := wallets_updated self |}.

Definition set_sent_protx_diff v (self : MNList) : MNList :=
  {| network := network self;
     config_path := config_path self;
     dash_net_enabled := dash_net_enabled self;
     load_mns := load_mns self;
     recent_list := recent_list self;
     protx_info := protx_info self;
     last_protx_info_save_time := last_protx_info_save_time self;
     mns_outpoints := mns_outpoints self;
     protx_height := protx_height self;
     llmq_height := llmq_height self;
     protx_mns := protx_mns self;
     sml_hashes := sml_hashes self;
     quorums := quorums self;
     llmq_hashes := llmq_hashes self;
     protx_state := protx_state self;
     diff_deleted_mns := diff_deleted_mns self;
     diff_hashes := diff_hashes self;
     info_hash := info_hash self;
     sent_getmnlistd := sent_getmnlistd self;
     sent_protx_diff := v;
     blockchain_loaded := blockchain_loaded self;
     wallets_updated := wallets_updated self |}.

(* ===================================================================== *)
(** ** The world around the engine                                        *)
(* ===================================================================== *)

(** A file of the data directory: a gzip-compressed JSON document, or
    anything that [gzip.open], [read], [decode] or [json.loads] rejects. *)
Inductive file : Type :=
| Unreadable
| Document (j : json).

Record FS : Type := {
  fs_files : dict file;
  fs_writable : string -> bool      (* whether opening for writing succeeds *)
}.

(** The value passed to [util.trigger_callback]. *)
Inductive cb_value : Type :=
| CbDiff (state : Z) (deleted_mns diff_hashes : list string)
| CbInfo (h : string)
| CbNone.

(** What leaves the engine: callbacks and the two requests, whose
    coroutines live in [dash_net] and [network]. *)
Inductive event : Type :=
| TriggerCallback (key : string) (value : cb_value)
| GetMNListD (get_mns : bool)
| RequestProtxDiff.

Record World : Type := {
  self : MNList;
  default_mn_list : dict rl_value;  (* the module-level [DEFAULT_MN_LIST] *)
  fs : FS;
  clock : Z;                        (* [time.time()] *)
  events : list event               (* newest first *)
}.

(** [DEFAULT_MN_LIST] as the module creates it. *)
Definition DEFAULT_MN_LIST : dict rl_value :=
  [("protx_height"%string, RLjson (JInt 0));
   ("llmq_height"%string, RLjson (JInt 0));
   ("protx_mns"%string, RLmns []);
   ("sml_hashes"%string, RLhashes []);
   ("quorums"%string, RLquorums []);
   ("llmq_hashes"%string, RLhashes [])].

Definition RECENT_LIST_FNAME : string := "recent_protx_list.gz".
Definition PROTX_INFO_FNAME : string := "protx_info.gz".

(** State and exceptions: a raised exception keeps the state reached. *)
Definition M (A : Type) : Type := World -> result A * World.

Definition ret {A : Type} (a : A) : M A := fun w => (Ok a, w).

Definition raise {A : Type} (e : exn) : M A := fun w => (Raise e, w).

Definition bindM {A B : Type} (m : M A) (k : A -> M B) : M B :=
  fun w =>
    match m w with
    | (Ok a, w') => k a w'
    | (Raise e, w') => (Raise e, w')
    end.

Notation "x <~ m ;; k" := (bindM m (fun x => k))
  (at level 61, m at next level, right associativity).
Notation "m ;;; k" := (bindM m (fun _ => k))
  (at level 61, right associativity).

Definition lift {A : Type} (r : result A) : M A := fun w => (r, w).

Definition get_self : M MNList := fun w => (Ok (self w), w).

Definition modify (f : MNList -> MNList) : M unit :=
  fun w => (Ok tt, {| self := f (self w);
                      default_mn_list := default_mn_list w;
                      fs := fs w; clock := clock w; events := events w |}).

Definition emit (e : event) : M unit :=
  fun w => (Ok tt, {| self := self w;
                      default_mn_list := default_mn_list w;
                      fs := fs w; clock := clock w;
                      events := e :: events w |}).

Definition get_fs : M FS := fun w => (Ok (fs w), w).

Definition put_fs (f : FS) : M unit :=
  fun w => (Ok tt, {| self := self w;
                      default_mn_list := default_mn_list w;
                      fs := f; clock := clock w; events := events w |}).

Definition get_clock : M Z := fun w => (Ok (clock w), w).

(** [try: body except Exception: handler] *)
Definition try_except {A : Type} (body : M A) (handler : exn -> M A) : M A :=
  fun w =>
    match body w with
    | (Ok a, w') => (Ok a, w')
    | (Raise e, w') => handler e w'
    end.

(** The dictionary [self.recent_list] refers to. *)
Definition the_recent_list (w : World) : dict rl_value :=
  match recent_list (self w) with
  | RefDefault => default_mn_list w
  | RefOwn d => d
  end.

(** [self.recent_list[k] = v]: the assignment goes to the object the
    attribute refers to. *)
Definition rl_set (k : string) (v : rl_value) : M unit :=
  fun w =>
    (Ok tt,
     {| self :=
          set_recent_list
            (match recent_list (self w) with
             | RefDefault => RefDefault
             | RefOwn d => RefOwn (dict_set d k v)
             end) (self w);
        default_mn_list :=
          match recent_list (self w) with
          | RefDefault => dict_set (default_mn_list w) k v
          | RefOwn _ => default_mn_list w
          end;
        fs := fs w; clock := clock w; events := events w |}).

(** Constants of [constants] and [constants.net]. *)
Class NetConstants : Type := {
  DIP3_ACTIVATION_HEIGHT : Z;
  CHUNK_SIZE : Z
}.

(** [verifier.SPV.hash_merkle_root] *)
Class SPV : Type := {
  hash_merkle_root : list string -> string -> Z -> result string
}.

(** Class methods of [dash_msg] that parse stored hex strings. *)
Class DashMsg : Type := {
  sml_from_hex : json -> result DashSMLEntry;
  qfcommit_from_hex : json -> result DashQFCommitMsg
}.

(* ===================================================================== *)
(** ** Properties of [MNList]                                             *)
(* ===================================================================== *)

Definition calc_max_height `{NetConstants} (base_height height : Z) : Z :=
  if (base_height + 1) mod CHUNK_SIZE =? 0 then base_height + CHUNK_SIZE
  else
    let next_chunk := (base_height + CHUNK_SIZE) / CHUNK_SIZE in
    next_chunk * CHUNK_SIZE - 1.

Definition llmq_tip (s : MNList) : Z :=
  get_local_height (network s) - LLMQ_OFFSET.

Definition protx_loading (s : MNList) : bool :=
  if negb (load_mns s) then false
  else get_local_height (network s) >? protx_height s.

Definition protx_ready `{NetConstants} (s : MNList) : bool :=
  if negb (load_mns s) || negb (network_bool (network s)) then false
  else
    let server_height := get_server_height (network s) in
    if server_height <=? DIP3_ACTIVATION_HEIGHT then false
    else if server_height - protx_height s >? 24 then false
    else if Nat.eqb (length (protx_mns s)) 0 then false
    else true.

Definition llmq_loading (s : MNList) : bool :=
  if negb (dash_net_enabled s) then false
  else llmq_tip s >? llmq_height s.

Definition llmq_ready `{NetConstants} (s : MNList) : bool :=
  if negb (dash_net_enabled s) || negb (network_bool (network s)) then false
  else
    let server_height := get_server_height (network s) in
    if server_height <=? DIP3_ACTIVATION_HEIGHT then false
    else if server_height - llmq_height s >? 24 + LLMQ_OFFSET then false
    else if Nat.eqb (length (quorums s)) 0 then false
    else true.

Definition llmq_human_height (s : MNList) : Z :=
  if llmq_height s >? 0 then llmq_height s + LLMQ_OFFSET
  else llmq_height s.

(** [len(protx_info) / len(protx_mns) >= 1], on the counts themselves. *)
Definition protx_info_complete (s : MNList) : bool :=
  negb (Nat.eqb (length (protx_mns s)) 0)
  && (length (protx_mns s) <=? length (protx_info s))%nat.

(** [calc_responsible_quorum] *)
Definition quorum_sort_hash (request_id : bytes) (q : DashQFCommitMsg)
  : bytes :=
  let prehash := [llmqType q] ++ quorumHash q ++ request_id in
  sha256d prehash.

Definition calc_responsible_quorum (s : MNList) (llmqType_ : Z)
           (request_id : bytes) : option DashQFCommitMsg :=
  let res :=
    map (fun q => (quorum_sort_hash request_id q, q))
        (filter (fun q => byte_val (llmqType q) =? llmqType_)
                (dict_values (quorums s))) in
  let res := sorted (@fst bytes _) res in
  match res with
  | r :: _ => Some (snd r)
  | [] => None
  end.

Definition get_random_mn_candidates (s : MNList) : list DashSMLEntry :=
  filter isValid (dict_values (protx_mns s)).

Definition get_mn_by_outpoint (s : MNList) (outpoint : string)
  : option DashSMLEntry :=
  match dict_get (mns_outpoints s) outpoint with
  | Some protx_hash =>
      if String.eqb protx_hash "" then None
      else dict_get (protx_mns s) protx_hash
  | None => None
  end.

(* ===================================================================== *)
(** ** Verification of the coinbase transaction                           *)
(* ===================================================================== *)

Definition str_truthy (s : option string) : bool :=
  match s with
  | Some s => negb (String.eqb s "")
  | None => false
  end.

Section CheckCbTx.

Context {S : Type} `{BCDataStream S} `{SPV}.

(** [check_cbtx_merkle_root], from [cbtx_txid = cbtx.txid()] on. *)
Definition check_cbtx_against (s : MNList) (cbtx : Transaction)
           (pmt : list string) : result bool :=
  let cbtx_txid := txid cbtx in
  match pmt with
  | [] => Raise IndexError                        (* [pmt[0]] *)
  | pmt0 :: pmt =>
      if negb (String.eqb cbtx_txid pmt0) then Ok false
      else
        merkle_root_calculated <-
          (if (0 <? length pmt)%nat then hash_merkle_root pmt cbtx_txid 0
           else Ok cbtx_txid) ;;
        let cbtx_height := cb_height (extra_payload cbtx) in
        match read_header (network s) cbtx_height with
        | None => Ok false
        | Some cbtx_header =>
            match hdr_merkle_root cbtx_header with
            | None => Ok false
            | Some mr =>
                if negb (String.eqb mr merkle_root_calculated) then Ok false
                else Ok true
            end
        end
  end.

Definition check_cbtx_merkle_root (s : MNList) (cbtx : Transaction)
           (merkle_tree : option string) (hashes : option (list bytes))
  : result bool :=
  if str_truthy merkle_tree then
    raw <- bfh (match merkle_tree with Some t => t | None => "" end) ;;
    tree <- pmt_read_bytes raw ;;
    check_cbtx_against s cbtx (pmt_hashes tree)
  else
    match hashes with
    | Some hashes =>
        check_cbtx_against s cbtx (map (fun h => bh2u (rev h)) hashes)
    | None => Ok false
    end.

End CheckCbTx.

(* ===================================================================== *)
(** ** Diff messages                                                      *)
(* ===================================================================== *)

Record DashDeletedQuorum : Type := {
  dq_llmqType : byte;
  dq_quorumHash : bytes
}.

(** [dash_msg.DashMNListDiffMsg], as [on_mnlistdiff] receives it. *)
Record MNListDiff : Type := {
  cbTx : Transaction;
  deletedMNs : list bytes;
  mnList : list DashSMLEntry;
  deletedQuorums : list DashDeletedQuorum;
  newQuorums : list DashQFCommitMsg;
  merkleHashes : list bytes
}.

(** An element of [diff['mnList']] of a [protx.diff] response:
    [mn.get('proRegTxHash')] and the result of [DashSMLEntry.from_dict(mn)]. *)
Record ProtxDiffMN : Type := {
  mn_proRegTxHash : option string;
  mn_from_dict : result DashSMLEntry
}.

(** The [protx.diff] response dictionary: [pd_cbTx] is the result of
    [Transaction(diff.get('cbTx', ''))] followed by [deserialize()]. *)
Record ProtxDiff : Type := {
  pd_cbTx : result Transaction;
  pd_deletedMNs : list string;
  pd_mnList : list ProtxDiffMN;
  pd_cbTxMerkleTree : option string
}.

Record DiffValue (D : Type) : Type := {
  v_params : Z * Z;
  v_error : option string;
  v_result : D
}.

(* ===================================================================== *)
(** ** Applying a diff to copies of the maps                              *)
(* ===================================================================== *)

(** [for del_hash in deleted_mns: ...] on the two copies. *)
Definition delete_mns (deleted_mns : list string)
           (maps : dict DashSMLEntry * dict bytes)
  : dict DashSMLEntry * dict bytes :=
  fold_left
    (fun m del_hash =>
       (if dict_mem (fst m) del_hash then dict_del (fst m) del_hash
        else fst m,
        if dict_mem (snd m) del_hash then dict_del (snd m) del_hash
        else snd m))
    deleted_mns maps.

(** [for sml_entry in diff.mnList: ...] *)
Definition insert_mns (entries : list (string * DashSMLEntry))
           (maps : dict DashSMLEntry * dict bytes)
  : dict DashSMLEntry * dict bytes :=
  fold_left
    (fun m e =>
       let protx_hash := fst e in
       let sml_hash := sha256d (sml_serialize (snd e)) in
       (dict_set (fst m) protx_hash (snd e),
        dict_set (snd m) protx_hash sml_hash))
    entries maps.

Definition quorum_key (quorum_hash : bytes) (llmq_type : byte) : string :=
  (bh2u (rev quorum_hash) ++ ":"
   ++ NilZero.string_of_int (Z.to_int (byte_val llmq_type)))%string.

Definition delete_quorums (deleted : list DashDeletedQuorum)
           (maps : dict DashQFCommitMsg * dict bytes)
  : dict DashQFCommitMsg * dict bytes :=
  fold_left
    (fun m dq =>
       let del_key := quorum_key (dq_quorumHash dq) (dq_llmqType dq) in
       (if dict_mem (fst m) del_key then dict_del (fst m) del_key
        else fst m,
        if dict_mem (snd m) del_key then dict_del (snd m) del_key
        else snd m))
    deleted maps.

Definition insert_quorums (new_quorums : list DashQFCommitMsg)
           (maps : dict DashQFCommitMsg * dict bytes)
  : dict DashQFCommitMsg * dict bytes :=
  fold_left
    (fun m nq =>
       let new_key := quorum_key (quorumHash nq) (llmqType nq) in
       let qfcommit_hash := sha256d (qf_serialize nq) in
       (dict_set (fst m) new_key nq, dict_set (snd m) new_key qfcommit_hash))
    new_quorums maps.

(* ===================================================================== *)
(** ** [on_mnlistdiff.process_mnlistdiff]                                 *)
(* ===================================================================== *)

(** A local variable that is assigned on some paths only. *)
Definition local {A : Type} (v : option A) : M A :=
  match v with
  | Some a => ret a
  | None => raise UnboundLocalError
  end.

(** [self.load_mns and base_height == self.protx_height] *)
Definition mns_applies (s : MNList) (base_height : Z) : bool :=
  load_mns s && (base_height =? protx_height s).

Definition mns_cond (base_height : Z) : M bool :=
  s <~ get_self ;; ret (mns_applies s base_height).

(** [base_height == self.llmq_height and height <= self.llmq_tip] *)
Definition llmq_applies (s : MNList) (base_height height : Z) : bool :=
  (base_height =? llmq_height s) && (height <=? llmq_tip s).

Definition llmq_cond (base_height height : Z) : M bool :=
  s <~ get_self ;; ret (llmq_applies s base_height height).

(** [protx_new] and [sml_hashes_new] of [process_mnlistdiff]: copies of
    the two maps with the deletions, then the insertions of the diff. *)
Definition mnlistdiff_mns_new (s : MNList) (diff : MNListDiff)
  : dict DashSMLEntry * dict bytes :=
  let deleted_mns := map (fun h => bh2u (rev h)) (deletedMNs diff) in
  insert_mns (map (fun e => (bh2u (rev (proRegTxHash e)), e)) (mnList diff))
             (delete_mns deleted_mns (protx_mns s, sml_hashes s)).

(** [quorums_new] and [llmq_hashes_new] of [process_mnlistdiff]. *)
Definition mnlistdiff_quorums_new (s : MNList) (diff : MNListDiff)
  : dict DashQFCommitMsg * dict bytes :=
  insert_quorums (newQuorums diff)
                 (delete_quorums (deletedQuorums diff)
                                 (quorums s, llmq_hashes s)).

(** [DashSMLEntry.from_dict] on every element of [diff['mnList']], with the
    key each entry is stored under. *)
Definition protx_diff_entries (diff : ProtxDiff)
  : result (list (string * DashSMLEntry)) :=
  mapM (fun mn =>
          let protx_hash :=
            match mn_proRegTxHash mn with
            | Some h => h
            | None => ""%string
            end in
          sml_entry <- mn_from_dict mn ;;
          Ok (protx_hash, sml_entry))
       (pd_mnList diff).

(** [protx_new] and [sml_hashes_new] of [process_protx_diff]. *)
Definition protx_diff_mns_new (s : MNList) (diff : ProtxDiff)
           (entries : list (string * DashSMLEntry))
  : dict DashSMLEntry * dict bytes :=
  insert_mns entries (delete_mns (pd_deletedMNs diff)
                                 (protx_mns s, sml_hashes s)).

(** The end of [process_mnlistdiff], once every check has passed: the new
    maps and heights replace the old ones. *)
Definition mnlistdiff_commit (base_height height : Z) (diff : MNListDiff)
           (mns_new : option (dict DashSMLEntry * dict bytes))
           (quorums_new : option (dict DashQFCommitMsg * dict bytes))
  : M unit :=
  let cbtx_height := cb_height (extra_payload (cbTx diff)) in
  let deleted_mns := map (fun h => bh2u (rev h)) (deletedMNs diff) in
  c <~ mns_cond base_height ;;
  (if c then
     modify (set_protx_height cbtx_height) ;;;
     rl_set "protx_height" (RLjson (JInt cbtx_height)) ;;;
     m <~ local mns_new ;;
     modify (set_protx_mns (fst m)) ;;;
     rl_set "protx_mns" (RLmns (fst m)) ;;;
     modify (set_sml_hashes (snd m)) ;;;
     rl_set "sml_hashes" (RLhashes (snd m)) ;;;
     modify (set_protx_state DIP3_ENABLED) ;;;
     modify (set_diff_deleted_mns deleted_mns) ;;;
     modify (set_diff_hashes
               (map (fun x => bh2u (rev (proRegTxHash x))) (mnList diff)))
   else
     modify (set_diff_deleted_mns []) ;;;
     modify (set_diff_hashes [])) ;;;
  c <~ llmq_cond base_height height ;;
  (if c then
     modify (set_llmq_height cbtx_height) ;;;
     rl_set "llmq_height" (RLjson (JInt cbtx_height)) ;;;
     q <~ local quorums_new ;;
     modify (set_quorums (fst q)) ;;;
     rl_set "quorums" (RLquorums (fst q)) ;;;
     modify (set_llmq_hashes (snd q)) ;;;
     rl_set "llmq_hashes" (RLhashes (snd q))
   else ret tt).

(** The branch of [process_mnlistdiff] for a classical coinbase
    transaction (disabled dip3). *)
Definition mnlistdiff_classical (height : Z) : M bool :=
  s <~ get_self ;;
  (if load_mns s then
     modify (set_protx_height height) ;;;
     rl_set "protx_height" (RLjson (JInt height)) ;;;
     modify (set_protx_state DIP3_DISABLED)
   else ret tt) ;;;
  modify (set_diff_deleted_mns []) ;;;
  modify (set_diff_hashes []) ;;;
  modify (set_llmq_height height) ;;;
  rl_set "llmq_height" (RLjson (JInt height)) ;;;
  ret true.

(** The end of [process_protx_diff], once every check has passed. *)
Definition protx_diff_commit (diff : ProtxDiff) (cbtx_extra : DashCbTx)
           (maps : dict DashSMLEntry * dict bytes) : M unit :=
  let cbtx_height := cb_height cbtx_extra in
  modify (set_protx_mns (fst maps)) ;;;
  rl_set "protx_mns" (RLmns (fst maps)) ;;;
  modify (set_sml_hashes (snd maps)) ;;;
  rl_set "sml_hashes" (RLhashes (snd maps)) ;;;
  modify (set_protx_height cbtx_height) ;;;
  rl_set "protx_height" (RLjson (JInt cbtx_height)) ;;;
  modify (set_protx_state DIP3_ENABLED) ;;;
  modify (set_diff_deleted_mns (pd_deletedMNs diff)) ;;;
  dh <~ lift (mapM (fun mn =>
                      match mn_proRegTxHash mn with
                      | Some h => Ok h
                      | None => Raise KeyError      (* [x['proRegTxHash']] *)
                      end)
                   (pd_mnList diff)) ;;
  modify (set_diff_hashes dh).

(** The branch of [process_protx_diff] for a classical coinbase
    transaction (disabled dip3). *)
Definition protx_diff_classical (height : Z) : M bool :=
  modify (set_protx_height height) ;;;
  rl_set "protx_height" (RLjson (JInt height)) ;;;
  modify (set_protx_state DIP3_DISABLED) ;;;
  modify (set_diff_deleted_mns []) ;;;
  modify (set_diff_hashes []) ;;;
  ret true.

Section Engine.

Context {S : Type} `{BCDataStream S} `{SPV}.

Definition process_mnlistdiff (base_height height : Z) (diff : MNListDiff)
  : M bool :=
  let cbtx := cbTx diff in
  if negb (tx_type cbtx =? 0) then
    if negb (tx_type cbtx =? 5) then ret false
    else
      let cbtx_extra := extra_payload cbtx in
      if cb_version cbtx_extra >? 2 then ret false
      else
        (* copies of the masternode maps *)
        c <~ mns_cond base_height ;;
        s <~ get_self ;;
        let mns_new :=
          if c then Some (mnlistdiff_mns_new s diff) else None in
        (* copies of the quorum maps *)
        c <~ llmq_cond base_height height ;;
        s <~ get_self ;;
        let quorums_new :=
          if c then Some (mnlistdiff_quorums_new s diff) else None in
        (* verification *)
        c <~ mns_cond base_height ;;
        sml_ok <~ (if c then
                     m <~ local mns_new ;;
                     lift (check_sml_merkle_root (snd m) cbtx_extra)
                   else ret true) ;;
        if negb sml_ok then ret false
        else
          c <~ llmq_cond base_height height ;;
          llmq_ok <~ (if c && (cb_version cbtx_extra >? 1) then
                        q <~ local quorums_new ;;
                        ret (check_llmq_merkle_root (snd q) cbtx_extra)
                      else ret true) ;;
          if negb llmq_ok then ret false
          else
            s <~ get_self ;;
            cbtx_ok <~ lift (check_cbtx_merkle_root s cbtx None
                               (Some (merkleHashes diff))) ;;
            if negb cbtx_ok then ret false
            else
              mnlistdiff_commit base_height height diff mns_new
                                quorums_new ;;;
              ret true
  else mnlistdiff_classical height.

(** [on_protx_diff.process_protx_diff] *)
Definition process_protx_diff (base_height height : Z) (diff : ProtxDiff)
  : M bool :=
  cbtx <~ lift (pd_cbTx diff) ;;
  if negb (tx_type cbtx =? 0) then
    if negb (tx_type cbtx =? 5) then ret false
    else
      let cbtx_extra := extra_payload cbtx in
      if cb_version cbtx_extra >? 2 then ret false
      else
        s <~ get_self ;;
        entries <~ lift (protx_diff_entries diff) ;;
        let maps := protx_diff_mns_new s diff entries in
        sml_ok <~ lift (check_sml_merkle_root (snd maps) cbtx_extra) ;;
        if negb sml_ok then ret false
        else
          let merkle_tree := pd_cbTxMerkleTree diff in
          s <~ get_self ;;
          cbtx_ok <~ lift (check_cbtx_merkle_root s cbtx merkle_tree None) ;;
          if negb cbtx_ok then ret false
          else
            protx_diff_commit diff cbtx_extra maps ;;;
            ret true
  else protx_diff_classical height.

End Engine.

(* ===================================================================== *)
(** ** Verification failures                                              *)
(* ===================================================================== *)

Section Failures.

Context {S : Type} `{BCDataStream S} `{SPV}.

(** The masternode root of a [mnlistdiff] is accepted, or not looked at. *)
Definition mnlistdiff_sml_passes (s : MNList) (base_height : Z)
           (diff : MNListDiff) : Prop :=
  mns_applies s base_height = false
  \/ check_sml_merkle_root (snd (mnlistdiff_mns_new s diff))
                           (extra_payload (cbTx diff)) = Ok true.

(** The quorum root of a [mnlistdiff] is accepted, or not looked at. *)
Definition mnlistdiff_llmq_passes (s : MNList) (base_height height : Z)
           (diff : MNListDiff) : Prop :=
  llmq_applies s base_height height
  && (cb_version (extra_payload (cbTx diff)) >? 1) = false
  \/ check_llmq_merkle_root (snd (mnlistdiff_quorums_new s diff))
                            (extra_payload (cbTx diff)) = true.

(** The ways [process_mnlistdiff] finds a diff wanting. *)
Inductive mnlistdiff_fails (s : MNList) (base_height height : Z)
          (diff : MNListDiff) : Prop :=
| unsupported_tx_type :
    tx_type (cbTx diff) <> 0 -> tx_type (cbTx diff) <> 5 ->
    mnlistdiff_fails s base_height height diff
| unsupported_version :
    tx_type (cbTx diff) = 5 ->
    cb_version (extra_payload (cbTx diff)) > 2 ->
    mnlistdiff_fails s base_height height diff
| sml_root_differs :
    tx_type (cbTx diff) = 5 ->
    cb_version (extra_payload (cbTx diff)) <= 2 ->
    mns_applies s base_height = true ->
    check_sml_merkle_root (snd (mnlistdiff_mns_new s diff))
                          (extra_payload (cbTx diff)) = Ok false ->
    mnlistdiff_fails s base_height height diff
| llmq_root_differs :
    tx_type (cbTx diff) = 5 ->
    cb_version (extra_payload (cbTx diff)) <= 2 ->
    mnlistdiff_sml_passes s base_height diff ->
    llmq_applies s base_height height = true ->
    cb_version (extra_payload (cbTx diff)) > 1 ->
    check_llmq_merkle_root (snd (mnlistdiff_quorums_new s diff))
                           (extra_payload (cbTx diff)) = false ->
    mnlistdiff_fails s base_height height diff
| cbtx_not_in_block :
    tx_type (cbTx diff) = 5 ->
    cb_version (extra_payload (cbTx diff)) <= 2 ->
    mnlistdiff_sml_passes s base_height diff ->
    mnlistdiff_llmq_passes s base_height height diff ->
    check_cbtx_merkle_root s (cbTx diff) None (Some (merkleHashes diff))
    = Ok false ->
    mnlistdiff_fails s base_height height diff.

(** Every check [process_mnlistdiff] runs on the diff has passed. *)
Definition mnlistdiff_verified (s : MNList) (base_height height : Z)
           (diff : MNListDiff) : Prop :=
  tx_type (cbTx diff) = 5
  /\ cb_version (extra_payload (cbTx diff)) <= 2
  /\ mnlistdiff_sml_passes s base_height diff
  /\ mnlistdiff_llmq_passes s base_height height diff
  /\ check_cbtx_merkle_root s (cbTx diff) None (Some (merkleHashes diff))
     = Ok true.

(** The ways [process_protx_diff] finds a diff wanting. *)
Inductive protx_diff_fails (s : MNList) (diff : ProtxDiff) : Prop :=
| pd_unsupported_tx_type cbtx :
    pd_cbTx diff = Ok cbtx ->
    tx_type cbtx <> 0 -> tx_type cbtx <> 5 ->
    protx_diff_fails s diff
| pd_unsupported_version cbtx :
    pd_cbTx diff = Ok cbtx ->
    tx_type cbtx = 5 -> cb_version (extra_payload cbtx) > 2 ->
    protx_diff_fails s diff
| pd_sml_root_differs cbtx entries :
    pd_cbTx diff = Ok cbtx ->
    tx_type cbtx = 5 -> cb_version (extra_payload cbtx) <= 2 ->
    protx_diff_entries diff = Ok entries ->
    check_sml_merkle_root (snd (protx_diff_mns_new s diff entries))
                          (extra_payload cbtx) = Ok false ->
    protx_diff_fails s diff
| pd_cbtx_not_in_block cbtx entries :
    pd_cbTx diff = Ok cbtx ->
    tx_type cbtx = 5 -> cb_version (extra_payload cbtx) <= 2 ->
    protx_diff_entries diff = Ok entries ->
    check_sml_merkle_root (snd (protx_diff_mns_new s diff entries))
                          (extra_payload cbtx) = Ok true ->
    check_cbtx_merkle_root s cbtx (pd_cbTxMerkleTree diff) None
    = Ok false ->
    protx_diff_fails s diff.

(** Every check [process_protx_diff] runs on the diff has passed. *)
Definition protx_diff_verified (s : MNList) (diff : ProtxDiff) : Prop :=
  exists cbtx entries,
    pd_cbTx diff = Ok cbtx
    /\ tx_type cbtx = 5
    /\ cb_version (extra_payload cbtx) <= 2
    /\ protx_diff_entries diff = Ok entries
    /\ check_sml_merkle_root (snd (protx_diff_mns_new s diff entries))
                             (extra_payload cbtx) = Ok true
    /\ check_cbtx_merkle_root s cbtx (pd_cbTxMerkleTree diff) None
       = Ok true.

End Failures.

(* ===================================================================== *)
(** ** Snapshot files                                                     *)
(* ===================================================================== *)

Fixpoint ends_with_sep (s : string) : bool :=
  match s with
  | EmptyString => false
  | String c EmptyString => Ascii.eqb c "/"%char
  | String _ s' => ends_with_sep s'
  end.

(** [os.path.join(a, b)] for a relative [b]. *)
Definition path_join (a b : string) : string :=
  if ends_with_sep a then (a ++ b)%string else (a ++ "/" ++ b)%string.

Definition config_path_str (s : MNList) : string :=
  match config_path s with Some p => p | None => ""%string end.

(** [gzip.open(path, 'rb')], [f.read()], [data.decode('utf-8')] and
    [json.loads]. *)
Definition gzip_read_json (path : string) : M json :=
  f <~ get_fs ;;
  match dict_get (fs_files f) path with
  | Some (Document j) => ret j
  | Some Unreadable => raise ValueError
  | None => raise OSError
  end.

(** [gzip.open(path, 'wb')] and [f.write(s.encode('utf-8'))] for
    [s = json.dumps(doc, indent=4)]. *)
Definition gzip_write_json (path : string) (doc : json) : M unit :=
  f <~ get_fs ;;
  if fs_writable f path then
    put_fs {| fs_files := dict_set (fs_files f) path (Document doc);
              fs_writable := fs_writable f |}
  else raise OSError.

(** [j[k]] for a string [k]. *)
Definition json_subscript (j : json) (k : string) : result json :=
  match j with
  | JDict d =>
      match dict_get d k with
      | Some v => Ok v
      | None => Raise KeyError
      end
  | _ => Raise TypeError
  end.

(** [j.items()] *)
Definition json_items (j : json) : result (list (string * json)) :=
  match j with
  | JDict d => Ok d
  | _ => Raise AttributeError
  end.

(** [bfh(v)[::-1]] *)
Definition bfh_rev_json (v : json) : result bytes :=
  match v with
  | JStr s => b <- bfh s ;; Ok (rev b)
  | _ => Raise TypeError
  end.

Definition convert_items {A : Type} (f : json -> result A) (rl : json)
           (k : string) : result (dict A) :=
  m <- json_subscript rl k ;;
  items <- json_items m ;;
  mapM (fun kv => a <- f (snd kv) ;; Ok (fst kv, a)) items.

Section Persistence.

Context `{DashMsg}.

(** The [try] block of [_read_recent_list], after [json.loads]. *)
Definition read_values_from_hex (rl : json) : result (dict rl_value) :=
  mns <- convert_items sml_from_hex rl "protx_mns" ;;
  smlh <- convert_items bfh_rev_json rl "sml_hashes" ;;
  qs <- convert_items qfcommit_from_hex rl "quorums" ;;
  llmqh <- convert_items bfh_rev_json rl "llmq_hashes" ;;
  items <- json_items rl ;;
  Ok (map (fun kv =>
             (fst kv,
              if String.eqb (fst kv) "protx_mns" then RLmns mns
              else if String.eqb (fst kv) "sml_hashes" then RLhashes smlh
              else if String.eqb (fst kv) "quorums" then RLquorums qs
              else if String.eqb (fst kv) "llmq_hashes" then RLhashes llmqh
              else RLjson (snd kv)))
          items).

(** [_read_recent_list]: the object it returns. *)
Definition _read_recent_list : M rl_ref :=
  s <~ get_self ;;
  if negb (str_truthy (config_path s)) then ret RefDefault
  else
    let path := path_join (config_path_str s) RECENT_LIST_FNAME in
    try_except
      (rl <~ gzip_read_json path ;;
       d <~ lift (read_values_from_hex rl) ;;
       ret (RefOwn d))
      (fun _ => ret RefDefault).

Definition _read_protx_info : M json :=
  s <~ get_self ;;
  if negb (str_truthy (config_path s)) then ret (JDict [])
  else
    let path := path_join (config_path_str s) PROTX_INFO_FNAME in
    try_except (gzip_read_json path) (fun _ => ret (JDict [])).

End Persistence.

(** [for k, v in rl[key].items(): rlc[key][k] = v.serialize(as_hex=True)].
    Both message classes have the method; a [bytes] or JSON value has
    not, which shows as soon as there is one to convert. *)
Definition hex_of_messages (rl : dict rl_value) (key : string)
  : result (list (string * json)) :=
  match dict_get rl key with
  | None => Raise KeyError
  | Some (RLmns d) =>
      Ok (map (fun kv => (fst kv, JStr (bh2u (sml_serialize (snd kv))))) d)
  | Some (RLquorums d) =>
      Ok (map (fun kv => (fst kv, JStr (bh2u (qf_serialize (snd kv))))) d)
  | Some (RLhashes []) => Ok []
  | Some (RLjson (JDict [])) => Ok []
  | Some _ => Raise AttributeError
  end.

(** [for k, v in rl[key].items(): rlc[key][k] = bh2u(v[::-1])] *)
Definition hex_of_hashes (rl : dict rl_value) (key : string)
  : result (list (string * json)) :=
  match dict_get rl key with
  | None => Raise KeyError
  | Some (RLhashes d) =>
      Ok (map (fun kv => (fst kv, JStr (bh2u (rev (snd kv))))) d)
  | Some (RLmns []) => Ok []
  | Some (RLquorums []) => Ok []
  | Some (RLjson (JDict [])) => Ok []
  | Some _ => Raise AttributeError
  end.

(** What [json.dumps] makes of a value that is left as it is. *)
Definition dump_value (v : rl_value) : result json :=
  match v with
  | RLjson j => Ok j
  | RLmns [] => Ok (JDict [])
  | RLquorums [] => Ok (JDict [])
  | RLhashes [] => Ok (JDict [])
  | _ => Raise TypeError
  end.

(** The dictionary [rlc] that [_save_recent_list] hands to [json.dumps]. *)
Definition recent_list_document (rl : dict rl_value) : result json :=
  mns <- hex_of_messages rl "protx_mns" ;;
  smlh <- hex_of_hashes rl "sml_hashes" ;;
  qs <- hex_of_messages rl "quorums" ;;
  llmqh <- hex_of_hashes rl "llmq_hashes" ;;
  items <- mapM (fun kv =>
                   if String.eqb (fst kv) "protx_mns" then Ok (fst kv, JDict mns)
                   else if String.eqb (fst kv) "sml_hashes"
                   then Ok (fst kv, JDict smlh)
                   else if String.eqb (fst kv) "quorums"
                   then Ok (fst kv, JDict qs)
                   else if String.eqb (fst kv) "llmq_hashes"
                   then Ok (fst kv, JDict llmqh)
                   else j <- dump_value (snd kv) ;; Ok (fst kv, j))
                rl ;;
  Ok (JDict items).

Definition _save_recent_list : M unit :=
  s <~ get_self ;;
  if negb (str_truthy (config_path s)) then ret tt
  else
    let path := path_join (config_path_str s) RECENT_LIST_FNAME in
    try_except
      (fun w =>
         (doc <~ lift (recent_list_document (the_recent_list w)) ;;
          gzip_write_json path doc) w)
      (fun _ => ret tt).

Definition _save_protx_info (force : bool) : M unit :=
  s <~ get_self ;;
  if negb (str_truthy (config_path s)) then ret tt
  else
    let path := path_join (config_path_str s) PROTX_INFO_FNAME in
    now <~ get_clock ;;
    let recently_saved := now - last_protx_info_save_time s <? 10 in
    let completed := protx_info_complete s in
    if recently_saved && negb (force || completed) then ret tt
    else
      try_except
        (gzip_write_json path (JDict (protx_info s)) ;;;
         modify (set_last_protx_info_save_time now))
        (fun _ => ret tt).

(* ===================================================================== *)
(** ** [notify] and [reset]                                               *)
(* ===================================================================== *)

Definition notify (key : string) : M unit :=
  s <~ get_self ;;
  value <~ (if String.eqb key "mn-list-diff-updated" then
              modify (set_diff_deleted_mns []) ;;;
              modify (set_diff_hashes []) ;;;
              ret (CbDiff (protx_state s) (diff_deleted_mns s) (diff_hashes s))
            else if String.eqb key "mn-list-info-updated" then
              modify (set_info_hash "") ;;;
              ret (CbInfo (info_hash s))
            else ret CbNone) ;;
  emit (TriggerCallback key value).

Definition reset : M unit :=
  rl_set "protx_height" (RLjson (JInt 1)) ;;; modify (set_protx_height 1) ;;;
  rl_set "llmq_height" (RLjson (JInt 1)) ;;; modify (set_llmq_height 1) ;;;
  rl_set "protx_mns" (RLmns []) ;;; modify (set_protx_mns []) ;;;
  rl_set "sml_hashes" (RLhashes []) ;;; modify (set_sml_hashes []) ;;;
  rl_set "quorums" (RLquorums []) ;;; modify (set_quorums []) ;;;
  rl_set "llmq_hashes" (RLhashes []) ;;; modify (set_llmq_hashes []) ;;;
  modify (set_protx_info []) ;;;
  modify (set_mns_outpoints []) ;;;
  _save_recent_list ;;;
  _save_protx_info true ;;;
  modify (set_protx_state DIP3_UNKNOWN) ;;;
  modify (set_diff_deleted_mns []) ;;;
  modify (set_diff_hashes []) ;;;
  notify "mn-list-diff-updated" ;;;
  s <~ get_self ;;
  if dash_net_enabled s then emit (GetMNListD false)
  else emit RequestProtxDiff.

(* ===================================================================== *)
(** ** The diff handlers                                                  *)
(* ===================================================================== *)

Definition str_in (h : string) (l : list string) : bool :=
  existsb (String.eqb h) l.

(** The two loops over [self.protx_info] after a diff has been applied. *)
Definition forget_protx_info : M unit :=
  s <~ get_self ;;
  modify (set_protx_info
            (fold_left (fun d h => dict_del d h) (diff_deleted_mns s)
                       (protx_info s))) ;;;
  s <~ get_self ;;
  modify (set_protx_info
            (filter (fun kv => negb (str_in (fst kv) (diff_hashes s)))
                    (protx_info s))).

Section Handlers.

Context {S : Type} `{BCDataStream S} `{SPV}.

Definition on_mnlistdiff (value : DiffValue MNListDiff) : M unit :=
  let base_height := fst (v_params value) in
  let height := snd (v_params value) in
  s <~ get_self ;;
  match sent_getmnlistd s with
  | None => ret tt                     (* [asyncio.QueueEmpty] *)
  | Some q =>
      modify (set_sent_getmnlistd None) ;;;
      if negb (fst q =? base_height) || negb (snd q =? height) then ret tt
      else
        s <~ get_self ;;
        if negb ((base_height =? llmq_height s)
                 || (base_height =? protx_height s))
        then ret tt
        else if str_truthy (v_error value) then notify "network-error"
        else
          ok <~ process_mnlistdiff base_height height (v_result value) ;;
          if ok then
            forget_protx_info ;;;
            s <~ get_self ;;
            (if llmq_loading s then emit (GetMNListD false)
             else if protx_loading s then emit (GetMNListD true)
             else ret tt) ;;;
            _save_recent_list ;;;
            notify "mn-list-diff-updated"
          else ret tt
  end.

Definition on_protx_diff (value : DiffValue ProtxDiff) : M unit :=
  let base_height := fst (v_params value) in
  let height := snd (v_params value) in
  s <~ get_self ;;
  match sent_protx_diff s with
  | None => ret tt                     (* [asyncio.QueueEmpty] *)
  | Some q =>
      modify (set_sent_protx_diff None) ;;;
      if negb (fst q =? base_height) || negb (snd q =? height) then ret tt
      else
        s <~ get_self ;;
        if negb (base_height =? protx_height s)
           && (negb (protx_height s =? 0) || negb (base_height =? 1))
        then ret tt
        else if str_truthy (v_error value) then notify "network-error"
        else
          ok <~ process_protx_diff base_height height (v_result value) ;;
          if ok then
            forget_protx_info ;;;
            s <~ get_self ;;
            (if protx_loading s then emit RequestProtxDiff else ret tt) ;;;
            _save_recent_list ;;;
            notify "mn-list-diff-updated"
          else ret tt
  end.

End Handlers.

(* ===================================================================== *)
(** ** The order of the specification's wording                           *)
(* ===================================================================== *)

Section SortedDescending.

Variable A : Type.
Variable key : A -> bytes.

(** [sorted(l, key=key, reverse=True)]: largest key first, stable. *)
Fixpoint sorted_insert_desc (x : A) (l : list A) : list A :=
  match l with
  | [] => [x]
  | y :: l' =>
      if bytes_ltb (key x) (key y) then y :: sorted_insert_desc x l'
      else x :: y :: l'
  end.

Definition sorted_desc (l : list A) : list A :=
  fold_right sorted_insert_desc [] l.

End SortedDescending.

(** The content hashes in the order the specification words: entries
    sorted by the byte-reversed key, descending. *)
Definition sml_hashes_descending (sml_hashes_dict : dict bytes)
  : result (list bytes) :=
  decorated <- mapM (fun item => k <- sml_sort_key item ;; Ok (k, item))
                    (dict_items sml_hashes_dict) ;;
  Ok (map (fun d => snd (snd d)) (sorted_desc (@fst bytes _) decorated)).

(** Whether [k] is the sort key of an entry of the hash map. *)
Definition has_sort_key (k : bytes) (item : string * bytes) : bool :=
  match sml_sort_key item with
  | Ok k' => bytes_eqb k' k
  | Raise _ => false
  end.

(* ===================================================================== *)
(** ** Sample data                                                        *)
(* ===================================================================== *)

Module Sample.

Definition hash_a : bytes := repeat "017"%byte 32.
Definition hash_b : bytes := repeat "034"%byte 32.
Definition hash_c : bytes := repeat "051"%byte 32.

(** Two masternode keys: the first is the smaller one once its bytes
    are reversed, the larger one as a string. *)
Definition key_a : string :=
  "0100000000000000000000000000000000000000000000000000000000000000".
Definition key_b : string :=
  "0000000000000000000000000000000000000000000000000000000000000002".

Definition sml_two : dict bytes := [(key_a, hash_a); (key_b, hash_b)].

(** A commitment payload whose masternode root is the root of [hashes]
    taken in the given order. *)
Definition cbtx_extra_for (hashes : list bytes) : DashCbTx :=
  {| cb_version := 2; cb_height := 100;
     merkleRootMNList := hd [] (merkle_loop hashes);
     merkleRootQuorums := zero_bytes 32 |}.

Definition net : Network :=
  {| network_bool := true;
     get_local_height := 1000;
     get_server_height := 1000;
     read_header := fun _ => None |}.

(** A stream reader over a list of bytes, little-endian numbers. *)
Definition le_value (b : bytes) : Z :=
  fold_right (fun x acc => byte_val x + 256 * acc) 0 b.

Definition take (n : nat) (s : bytes) : result (bytes * bytes) :=
  if (length s <? n)%nat then Raise SerializationError
  else Ok (firstn n s, skipn n s).

Definition take_number (n : nat) (s : bytes) : result (Z * bytes) :=
  r <- take n s ;; Ok (le_value (fst r), snd r).

Definition byte_stream : BCDataStream bytes :=
  {| vds_write := fun b => b;
     read_uint32 := take_number 4;
     read_compact_size := fun s =>
       r <- take_number 1 s ;;
       if fst r <? 253 then Ok r
       else if fst r =? 253 then take_number 2 (snd r)
       else if fst r =? 254 then take_number 4 (snd r)
       else take_number 8 (snd r);
     read_bytes := fun s n => take (Z.to_nat n) s;
     read_uchar := take_number 1;
     can_read_more := fun s => negb (length s =? 0)%nat |}.

(** A verifier that accepts no merkle branch. *)
Definition no_branch : SPV :=
  {| hash_merkle_root := fun _ _ _ => Raise MerkleVerificationFailure |}.

Definition mainnet : NetConstants :=
  {| DIP3_ACTIVATION_HEIGHT := 1028160; CHUNK_SIZE := 2016 |}.

(** An engine that has loaded nothing yet. *)
Definition idle : MNList :=
  {| network := net;
     config_path := None;
     dash_net_enabled := true;
     load_mns := true;
     recent_list := RefDefault;
     protx_info := [];
     last_protx_info_save_time := 0;
     mns_outpoints := [];
     protx_height := 0;
     llmq_height := 0;
     protx_mns := [];
     sml_hashes := [];
     quorums := [];
     llmq_hashes := [];
     protx_state := DIP3_UNKNOWN;
     diff_deleted_mns := [];
     diff_hashes := [];
     info_hash := "";
     sent_getmnlistd := None;
     sent_protx_diff := None;
     blockchain_loaded := true;
     wallets_updated := true |}.

End Sample.

(* ===================================================================== *)
(** ** A sample partial merkle tree                                       *)
(* ===================================================================== *)

Module SampleTree.

(** Total 1, one hash, one flag byte with the lowest bit set. *)
Definition pmt_raw : bytes :=
  ["001"%byte; x00; x00; x00; "001"%byte] ++ Sample.hash_a
  ++ ["001"%byte; "001"%byte].

Definition pmt_tree : PartialMerkleTree :=
  {| pmt_total := 1;
     pmt_hashes := [bh2u (rev Sample.hash_a)];
     pmt_flags := [1; 0; 0; 0; 0; 0; 0; 0] |}.

End SampleTree.

(* ===================================================================== *)
(** ** A sample chain                                                     *)
(* ===================================================================== *)

Module SampleChain.

(** A block at height 100 whose only transaction is the coinbase. *)
Definition coinbase_txid : string := bh2u (rev Sample.hash_a).

Definition net : Network :=
  {| network_bool := true;
     get_local_height := 120;
     get_server_height := 120;
     read_header := fun h =>
       if h =? 100 then Some {| hdr_merkle_root := Some coinbase_txid |}
       else None |}.

Definition cbtx : Transaction :=
  {| tx_version := 3; tx_type := 5;
     extra_payload := {| cb_version := 1; cb_height := 100;
                         merkleRootMNList := zero_bytes 32;
                         merkleRootQuorums := zero_bytes 32 |};
     txid := coinbase_txid |}.

(** An engine at height 99 of that chain, with requests outstanding. *)
Definition engine : MNList :=
  {| network := net;
     config_path := Some "/data"%string;
     dash_net_enabled := true;
     load_mns := true;
     recent_list := RefOwn DEFAULT_MN_LIST;
     protx_info := [];
     last_protx_info_save_time := 0;
     mns_outpoints := [];
     protx_height := 99;
     llmq_height := 99;
     protx_mns := [];
     sml_hashes := [];
     quorums := [];
     llmq_hashes := [];
     protx_state := DIP3_UNKNOWN;
     diff_deleted_mns := [];
     diff_hashes := [];
     info_hash := "";
     sent_getmnlistd := Some (99, 100);
     sent_protx_diff := Some (99, 100);
     blockchain_loaded := true;
     wallets_updated := true |}.

Definition files : FS :=
  {| fs_files := []; fs_writable := fun _ => true |}.

Definition world : World :=
  {| self := engine; default_mn_list := DEFAULT_MN_LIST; fs := files;
     clock := 1000; events := [] |}.

Definition empty_diff : MNListDiff :=
  {| cbTx := cbtx; deletedMNs := []; mnList := [];
     deletedQuorums := []; newQuorums := [];
     merkleHashes := [Sample.hash_a] |}.

(** The server answers the pending [getmnlistd] request with an error. *)
Definition mnlistdiff_error : DiffValue MNListDiff :=
  {| v_params := (99, 100); v_error := Some "timeout"%string;
     v_result := empty_diff |}.

Definition empty_protx_diff : ProtxDiff :=
  {| pd_cbTx := Ok cbtx; pd_deletedMNs := []; pd_mnList := [];
     pd_cbTxMerkleTree := None |}.

(** The server answers the pending [protx.diff] request with an error. *)
Definition protx_diff_error : DiffValue ProtxDiff :=
  {| v_params := (99, 100); v_error := Some "timeout"%string;
     v_result := empty_protx_diff |}.

End SampleChain.

(* ===================================================================== *)
(** ** What a diff may change                                             *)
(* ===================================================================== *)

(** The verified heights and maps of the engine. *)
Definition snapshot (s : MNList)
  : Z * Z * dict DashSMLEntry * dict bytes * dict DashQFCommitMsg
    * dict bytes :=
  (protx_height s, llmq_height s, protx_mns s, sml_hashes s, quorums s,
   llmq_hashes s).

(** A dictionary as Python keeps it: no key twice. *)
Definition dict_ok {V : Type} (d : dict V) : Prop := NoDup (dict_keys d).

(* ===================================================================== *)
(** ** A sample engine with masternode information                        *)
(* ===================================================================== *)

Module SampleInfo.

Definition info (protx_hash collateral : string) (index : Z) : json :=
  JDict [("proTxHash"%string, JStr protx_hash);
         ("collateralHash"%string, JStr collateral);
         ("collateralIndex"%string, JInt index)].

(** Information on two masternodes; the first has just been deleted by a
    diff, a third one has just been added. *)
Definition engine : MNList :=
  {| network := SampleChain.net;
     config_path := Some "/data"%string;
     dash_net_enabled := true;
     load_mns := true;
     recent_list := RefOwn DEFAULT_MN_LIST;
     protx_info := [(Sample.key_a, info Sample.key_a "c1" 0);
                    (Sample.key_b, info Sample.key_b "c2" 1)];
     last_protx_info_save_time := 0;
     mns_outpoints := [("c1:0"%string, Sample.key_a);
                       ("c2:1"%string, Sample.key_b)];
     protx_height := 100;
     llmq_height := 100;
     protx_mns := [];
     sml_hashes := [];
     quorums := [];
     llmq_hashes := [];
     protx_state := DIP3_ENABLED;
     diff_deleted_mns := [Sample.key_a];
     diff_hashes := ["03"%string];
     info_hash := "";
     sent_getmnlistd := None;
     sent_protx_diff := None;
     blockchain_loaded := true;
     wallets_updated := true |}.

Definition files : FS :=
  {| fs_files := []; fs_writable := fun _ => true |}.

(** A parser that knows no message. *)
Definition no_messages : DashMsg :=
  {| sml_from_hex := fun _ => Raise ValueError;
     qfcommit_from_hex := fun _ => Raise ValueError |}.

Definition world : World :=
  {| self := engine; default_mn_list := DEFAULT_MN_LIST; fs := files;
     clock := 1000; events := [] |}.

End SampleInfo.

(* ===================================================================== *)
(** ** Well-formed recent lists                                           *)
(* ===================================================================== *)

Definition is_map_key (k : string) : bool :=
  String.eqb k "protx_mns" || String.eqb k "sml_hashes"
  || String.eqb k "quorums" || String.eqb k "llmq_hashes".

(** The shape [_read_recent_list] and the diff handlers give the recent
    list: the four maps under their keys, JSON values under every other
    key, no key twice. *)
Definition recent_list_wf (rl : dict rl_value) : Prop :=
  dict_ok rl
  /\ (exists d, dict_get rl "protx_mns" = Some (RLmns d))
  /\ (exists d, dict_get rl "sml_hashes" = Some (RLhashes d))
  /\ (exists d, dict_get rl "quorums" = Some (RLquorums d))
  /\ (exists d, dict_get rl "llmq_hashes" = Some (RLhashes d))
  /\ Forall (fun kv => is_map_key (fst kv) = false ->
                       exists j, snd kv = RLjson j) rl.

(** What [_save_recent_list] writes for a value of the recent list. *)
Definition hex_json (v : rl_value) : json :=
  match v with
  | RLjson j => j
  | RLmns d =>
      JDict (map (fun kv => (fst kv, JStr (bh2u (sml_serialize (snd kv))))) d)
  | RLquorums d =>
      JDict (map (fun kv => (fst kv, JStr (bh2u (qf_serialize (snd kv))))) d)
  | RLhashes d =>
      JDict (map (fun kv => (fst kv, JStr (bh2u (rev (snd kv))))) d)
  end.

(** The stored messages are read back from their hex form. *)
Definition messages_read_back `{DashMsg} (rl : dict rl_value) : Prop :=
  (forall d k e, dict_get rl "protx_mns" = Some (RLmns d) -> In (k, e) d ->
                 sml_from_hex (JStr (bh2u (sml_serialize e))) = Ok e)
  /\ (forall d k q, dict_get rl "quorums" = Some (RLquorums d) ->
                    In (k, q) d ->
                    qfcommit_from_hex (JStr (bh2u (qf_serialize q))) = Ok q).

(* ===================================================================== *)
(** ** The handlers of the event bus                                      *)
(* ===================================================================== *)

Definition set_dash_net_enabled v (self : MNList) : MNList :=
  {| network := network self;
     config_path := config_path self;
     dash_net_enabled := v;
     load_mns := load_mns self;
     recent_list := recent_list self;
     protx_info := protx_info self;
     last_protx_info_save_time := last_protx_info_save_time self;
     mns_outpoints := mns_outpoints self;
     protx_height := protx_height self;
     llmq_height := llmq_height self;
     protx_mns := protx_mns self;
     sml_hashes := sml_hashes self;
     quorums := quorums self;
     llmq_hashes := llmq_hashes self;
     protx_state := protx_state self;
     diff_deleted_mns := diff_deleted_mns self;
     diff_hashes := diff_hashes self;
     info_hash := info_hash self;
     sent_getmnlistd := sent_getmnlistd self;
     sent_protx_diff := sent_protx_diff self;
     blockchain_loaded := blockchain_loaded self;
     wallets_updated := wallets_updated self |}.

Definition set_blockchain_loaded v (self : MNList) : MNList :=
  {| network := network self;
     config_path := config_path self;
     dash_net_enabled := dash_net_enabled self;
     load_mns := load_mns self;
     recent_list := recent_list self;
     protx_info := protx_info self;
     last_protx_info_save_time := last_protx_info_save_time self;
     mns_outpoints := mns_outpoints self;
     protx_height := protx_height self;
     llmq_height := llmq_height self;
     protx_mns := protx_mns self;
     sml_hashes := sml_hashes self;
     quorums := quorums self;
     llmq_hashes := llmq_hashes self;
     protx_state := protx_state self;
     diff_deleted_mns := diff_deleted_mns self;
     diff_hashes := diff_hashes self;
     info_hash := info_hash self;
     sent_getmnlistd := sent_getmnlistd self;
     sent_protx_diff := sent_protx_diff self;
     blockchain_loaded := v;
     wallets_updated := wallets_updated self |}.

Definition set_wallets_updated v (self : MNList) : MNList :=
  {| network := network self;
     config_path := config_path self;
     dash_net_enabled := dash_net_enabled self;
     load_mns := load_mns self;
     recent_list := recent_list self;
     protx_info := protx_info self;
     last_protx_info_save_time := last_protx_info_save_time self;
     mns_outpoints := mns_outpoints self;
     protx_height := protx_height self;
     llmq_height := llmq_height self;
     protx_mns := protx_mns self;
     sml_hashes := sml_hashes self;
     quorums := quorums self;
     llmq_hashes := llmq_hashes self;
     protx_state := protx_state self;
     diff_deleted_mns := diff_deleted_mns self;
     diff_hashes := diff_hashes self;
     info_hash := info_hash self;
     sent_getmnlistd := sent_getmnlistd self;
     sent_protx_diff := sent_protx_diff self;
     blockchain_loaded := blockchain_loaded self;
     wallets_updated := v |}.

(** What a handler sends out: a diff request, or
    [util.trigger_callback(key)]. *)
Inductive action : Type :=
| Request (e : event)
| Trigger (key : string).

(** The end shared by [on_network_updated], [on_network_error] and
    [on_dash_net_updated]: the request for what is still loading. *)
Definition request_loading (s : MNList) : list action :=
  if dash_net_enabled s then
    if llmq_loading s then [Request (GetMNListD false)]
    else if protx_loading s then [Request (GetMNListD true)]
    else []
  else if protx_loading s then [Request RequestProtxDiff]
  else [].

(** [is_connected] is the answer of [self.network.is_connected()]. *)
Definition on_network_status (is_connected : bool) (s : MNList)
  : MNList * list action :=
  if negb (wallets_updated s) then (s, [])
  else if negb (dash_net_enabled s) && is_connected && protx_loading s
       then (s, [Request RequestProtxDiff])
       else (s, []).

(** [wallets] lists [w.is_up_to_date()] for the wallets of the daemon. *)
Definition on_wallet_updated (wallets : list bool) (s : MNList)
  : MNList * list action :=
  if negb (blockchain_loaded s) then (s, [])
  else if negb (wallets_updated s) then
         if forallb (fun up_to_date => up_to_date) wallets
         then (set_wallets_updated true s, [Trigger "network_updated"])
         else (s, [])
       else (s, [Trigger "network_updated"]).

(** [chain_complete] is [self.network.blockchain_completeness >= 1.0]. *)
Definition on_bchain_updated (chain_complete : bool) (wallets : list bool)
           (s : MNList) : MNList * list action :=
  let s :=
    if negb (blockchain_loaded s) && chain_complete
    then set_blockchain_loaded true s else s in
  if negb (blockchain_loaded s) then (s, [])
  else if negb (wallets_updated s) then on_wallet_updated wallets s
       else (s, []).

Definition on_network_updated (chain_complete : bool) (s : MNList)
  : MNList * list action :=
  let triggered :=
    if negb (blockchain_loaded s) && chain_complete
    then [Trigger "blockchain_updated"] else [] in
  if negb (wallets_updated s) then (s, triggered)
  else (s, triggered ++ request_loading s).

(** After [await asyncio.sleep(2)]. *)
Definition on_network_error (s : MNList) : MNList * list action :=
  (s, request_loading s).

Definition on_dash_net_updated (status : string) (s : MNList)
  : MNList * list action :=
  let s :=
    if String.eqb status "enabled" then set_dash_net_enabled true s
    else if String.eqb status "disabled" then set_dash_net_enabled false s
    else s in
  if negb (wallets_updated s) then (s, [])
  else (s, request_loading s).

(** An event of the bus with what the handler asks the network. *)
Inductive bus_event : Type :=
| NetworkStatus (is_connected : bool)
| BchainUpdated (chain_complete : bool) (wallets : list bool)
| WalletUpdated (wallets : list bool)
| NetworkUpdated (chain_complete : bool)
| NetworkError
| DashNetUpdated (status : string).

Definition handle (ev : bus_event) (s : MNList) : MNList * list action :=
  match ev with
  | NetworkStatus is_connected => on_network_status is_connected s
  | BchainUpdated chain_complete wallets =>
      on_bchain_updated chain_complete wallets s
  | WalletUpdated wallets => on_wallet_updated wallets s
  | NetworkUpdated chain_complete => on_network_updated chain_complete s
  | NetworkError => on_network_error s
  | DashNetUpdated status => on_dash_net_updated status s
  end.

Definition requests (acts : list action) : list event :=
  flat_map (fun a => match a with Request e => [e] | Trigger _ => [] end)
           acts.

(* ===================================================================== *)
(** ** Masternode information and lookups                                 *)
(* ===================================================================== *)

(** What an f-string inserts for a value: [str(value)]. *)
Class Formatting : Type := {
  py_str : json -> string
}.

(** [info.get(k)]: [None] for a missing key. *)
Definition info_get (info : json) (k : string) : result json :=
  match info with
  | JDict d =>
      Ok (match dict_get d k with Some v => v | None => JNull end)
  | _ => Raise AttributeError
  end.

(** [f'{collateralHash}:{collateralIndex}'] *)
Definition info_outpoint `{Formatting} (info : json) : result string :=
  collateralHash <- info_get info "collateralHash" ;;
  collateralIndex <- info_get info "collateralIndex" ;;
  Ok (py_str collateralHash ++ ":" ++ py_str collateralIndex)%string.

(** The loop of [do_back_info_mapping]. *)
Fixpoint back_info_mapping `{Formatting} (items : list (string * json))
         (mns_outpoints : dict string) : result (dict string) :=
  match items with
  | [] => Ok mns_outpoints
  | (protx_hash, info) :: rest =>
      outpoint <- info_outpoint info ;;
      back_info_mapping rest (dict_set mns_outpoints outpoint protx_hash)
  end.

Definition do_back_info_mapping `{Formatting} (s : MNList)
  : result (dict string) :=
  back_info_mapping (dict_items (protx_info s)) [].

(** [process_info]: the keys of [protx_mns] without information, a set;
    the mapping it computes first is dropped. *)
Definition process_info `{Formatting} (s : MNList) : result (list string) :=
  _ <- do_back_info_mapping s ;;
  Ok (filter (fun h => negb (dict_mem (protx_info s) h))
             (dict_keys (protx_mns s))).

(** Whether the information has the outpoint [o]. *)
Definition has_outpoint `{Formatting} (o : string) (item : string * json)
  : bool :=
  match info_outpoint (snd item) with
  | Ok o' => String.eqb o' o
  | Raise _ => false
  end.

(** [get_random_mn]; [random.choice] picks an index below the number of
    valid entries, [draw] stands for the random number. *)
Definition get_random_mn (draw : nat) (s : MNList) : option DashSMLEntry :=
  let valid := get_random_mn_candidates s in
  match valid with
  | [] => None
  | e :: _ => Some (nth (draw mod length valid) valid e)
  end.

Module SampleFormat.

(** [str] of the values that occur in the sample. *)
Definition formatting : Formatting :=
  {| py_str := fun j =>
       match j with
       | JStr s => s
       | JInt n => NilZero.string_of_int (Z.to_int n)
       | JNull => "None"%string
       | _ => ""%string
       end |}.

End SampleFormat.

(* ===================================================================== *)
(** ** Content hashes that fit the maps                                   *)
(* ===================================================================== *)

(** The hash map that goes with a map of messages: the same keys in the
    same order, each with the SHA-256d of the serialized message. *)
Definition content_hashes {A : Type} (serialize : A -> bytes)
           (entries : dict A) : dict bytes :=
  map (fun kv => (fst kv, sha256d (serialize (snd kv)))) entries.

Definition hashes_consistent (s : MNList) : Prop :=
  sml_hashes s = content_hashes sml_serialize (protx_mns s)
  /\ llmq_hashes s = content_hashes qf_serialize (quorums s).


(** [m] keeps the hash maps with their maps whatever its outcome, and a
    value it returns satisfies [Q]. *)
Definition keeps_hashes {A : Type} (m : M A) (Q : A -> Prop) : Prop :=
  forall (w : World) (r : result A) (w' : World),
    hashes_consistent (self w) ->
    m w = (r, w') ->
    hashes_consistent (self w') /\ (forall a, r = Ok a -> Q a).
(* ===================================================================== *)
(** * Properties                                                          *)
(* ===================================================================== *)

(** ** The order on [bytes] *)

Lemma byte_val_inj (a b : byte) : byte_val a = byte_val b -> a = b.
Proof.
  unfold byte_val. intros E. apply N2Z.inj in E.
  pose proof (Stdlib.Strings.Byte.of_to_N a) as Ha.
  pose proof (Stdlib.Strings.Byte.of_to_N b) as Hb.
  rewrite E in Ha. congruence.
Qed.

Lemma bytes_compare_refl (a : bytes) : bytes_compare a a = Eq.
Proof.
  induction a as [|x a IH]; simpl; [reflexivity|].
  now rewrite Z.compare_refl.
Qed.

Lemma bytes_compare_eq (a b : bytes) : bytes_compare a b = Eq -> a = b.
Proof.
  revert b. induction a as [|x a IH]; intros [|y b]; simpl; try discriminate.
  - reflexivity.
  - destruct (byte_val x ?= byte_val y) eqn:E; try discriminate.
    intros Hab. apply Z.compare_eq in E. apply byte_val_inj in E.
    f_equal; auto.
Qed.

Lemma bytes_compare_antisym (a b : bytes) :
  bytes_compare b a = CompOpp (bytes_compare a b).
Proof.
  revert b. induction a as [|x a IH]; intros [|y b]; simpl; try reflexivity.
  rewrite (Z.compare_antisym (byte_val x) (byte_val y)).
  destruct (byte_val x ?= byte_val y); simpl; auto.
Qed.

Lemma bytes_compare_lt_trans (a b c : bytes) :
  bytes_compare a b = Lt -> bytes_compare b c = Lt -> bytes_compare a c = Lt.
Proof.
  revert b c.
  induction a as [|x a IH]; intros [|y b] [|z c]; simpl; try discriminate;
    try reflexivity.
  destruct (byte_val x ?= byte_val y) eqn:Exy; try discriminate;
    destruct (byte_val y ?= byte_val z) eqn:Eyz; try discriminate; intros H1 H2.
  - apply Z.compare_eq in Exy, Eyz.
    replace (byte_val x ?= byte_val z) with Eq
      by (symmetry; apply Z.compare_eq_iff; lia).
    eauto.
  - apply Z.compare_eq in Exy. rewrite Exy, Eyz. reflexivity.
  - apply Z.compare_eq in Eyz. rewrite <- Eyz, Exy. reflexivity.
  - rewrite Z.compare_lt_iff in Exy, Eyz.
    replace (byte_val x ?= byte_val z) with Lt
      by (symmetry; apply Z.compare_lt_iff; lia).
    reflexivity.
Qed.

Lemma bytes_eqb_eq (a b : bytes) : bytes_eqb a b = true <-> a = b.
Proof.
  unfold bytes_eqb. split.
  - destruct (bytes_compare a b) eqn:E; try discriminate.
    intros _. now apply bytes_compare_eq.
  - intros ->. now rewrite bytes_compare_refl.
Qed.

Lemma bytes_leb_refl (a : bytes) : bytes_leb a a = true.
Proof. unfold bytes_leb. now rewrite bytes_compare_refl. Qed.

Lemma bytes_leb_trans (a b c : bytes) :
  bytes_leb a b = true -> bytes_leb b c = true -> bytes_leb a c = true.
Proof.
  unfold bytes_leb.
  destruct (bytes_compare a b) eqn:Eab; try discriminate;
    destruct (bytes_compare b c) eqn:Ebc; try discriminate; intros _ _.
  - apply bytes_compare_eq in Eab, Ebc. subst. now rewrite bytes_compare_refl.
  - apply bytes_compare_eq in Eab. subst. now rewrite Ebc.
  - apply bytes_compare_eq in Ebc. subst. now rewrite Eab.
  - now rewrite (bytes_compare_lt_trans _ _ _ Eab Ebc).
Qed.

Lemma bytes_leb_antisym (a b : bytes) :
  bytes_leb a b = true -> bytes_leb b a = true -> a = b.
Proof.
  unfold bytes_leb. rewrite (bytes_compare_antisym a b).
  destruct (bytes_compare a b) eqn:E; simpl; try discriminate.
  intros _ _. now apply bytes_compare_eq.
Qed.

Lemma bytes_ltb_false_leb (a b : bytes) :
  bytes_ltb a b = false -> bytes_leb b a = true.
Proof.
  unfold bytes_ltb, bytes_leb. rewrite (bytes_compare_antisym a b).
  destruct (bytes_compare a b); simpl; congruence.
Qed.

Lemma bytes_ltb_true_leb (a b : bytes) :
  bytes_ltb a b = true -> bytes_leb a b = true.
Proof.
  unfold bytes_ltb, bytes_leb. destruct (bytes_compare a b); congruence.
Qed.

Lemma bytes_ltb_neq (a b : bytes) : bytes_ltb a b = true -> a <> b.
Proof.
  unfold bytes_ltb. intros Hlt ->. rewrite bytes_compare_refl in Hlt.
  discriminate.
Qed.

(** ** [sorted] is a stable sort *)

Section SortedFacts.

Variable A : Type.
Variable key : A -> bytes.

Definition key_le (x y : A) : Prop := bytes_leb (key x) (key y) = true.

Lemma sorted_insert_perm (x : A) (l : list A) :
  Permutation (sorted_insert key x l) (x :: l).
Proof.
  induction l as [|y l IH]; simpl; [reflexivity|].
  destruct (bytes_ltb (key y) (key x)); [|reflexivity].
  rewrite IH. apply perm_swap.
Qed.

Lemma sorted_perm (l : list A) : Permutation (sorted key l) l.
Proof.
  induction l as [|x l IH]; simpl; [reflexivity|].
  rewrite sorted_insert_perm. now constructor.
Qed.

Lemma sorted_insert_sorted (x : A) (l : list A) :
  StronglySorted key_le l -> StronglySorted key_le (sorted_insert key x l).
Proof.
  induction 1 as [|y l Hs IH Hall]; simpl.
  - repeat constructor.
  - destruct (bytes_ltb (key y) (key x)) eqn:E.
    + constructor; [exact IH|].
      eapply Permutation_Forall;
        [symmetry; apply sorted_insert_perm|].
      constructor; [now apply bytes_ltb_true_leb | exact Hall].
    + apply bytes_ltb_false_leb in E.
      constructor; [now constructor|].
      constructor; [exact E|].
      eapply Forall_impl; [|exact Hall].
      intros z Hz. unfold key_le in *. eapply bytes_leb_trans; eauto.
Qed.

Lemma sorted_sorted (l : list A) : StronglySorted key_le (sorted key l).
Proof.
  induction l as [|x l IH]; simpl; [constructor|].
  now apply sorted_insert_sorted.
Qed.

(** Elements with the same key keep the order they had. *)
Lemma sorted_insert_stable (k : bytes) (x : A) (l : list A) :
  filter (fun y => bytes_eqb (key y) k) (sorted_insert key x l)
  = filter (fun y => bytes_eqb (key y) k) (x :: l).
Proof.
  induction l as [|y l IH]; [reflexivity|].
  simpl sorted_insert.
  destruct (bytes_ltb (key y) (key x)) eqn:E; [|reflexivity].
  change (filter (fun y0 => bytes_eqb (key y0) k)
                 (y :: sorted_insert key x l))
    with (if bytes_eqb (key y) k
          then y :: filter (fun y0 => bytes_eqb (key y0) k)
                           (sorted_insert key x l)
          else filter (fun y0 => bytes_eqb (key y0) k)
                      (sorted_insert key x l)).
  rewrite IH. simpl.
  destruct (bytes_eqb (key y) k) eqn:Ey;
    destruct (bytes_eqb (key x) k) eqn:Ex; try reflexivity.
  apply bytes_eqb_eq in Ey, Ex. apply bytes_ltb_neq in E. congruence.
Qed.

Lemma sorted_stable (k : bytes) (l : list A) :
  filter (fun y => bytes_eqb (key y) k) (sorted key l)
  = filter (fun y => bytes_eqb (key y) k) l.
Proof.
  induction l as [|x l IH]; [reflexivity|].
  simpl sorted. rewrite sorted_insert_stable. simpl. now rewrite IH.
Qed.

(** The first element of a sorted list has the smallest key. *)
Lemma sorted_head_least (l : list A) (x : A) (rest : list A) :
  sorted key l = x :: rest ->
  In x l /\ forall y, In y l -> key_le x y.
Proof.
  intros E. pose proof (sorted_perm l) as P.
  pose proof (sorted_sorted l) as Ss. rewrite E in P, Ss.
  split.
  - eapply Permutation_in; [exact P|]. now left.
  - intros y Hy.
    apply (Permutation_in _ (Permutation_sym P)) in Hy.
    destruct Hy as [->|Hy].
    + apply bytes_leb_refl.
    + apply StronglySorted_inv in Ss. destruct Ss as [_ Hall].
      rewrite Forall_forall in Hall. now apply Hall.
Qed.

End SortedFacts.

(** Two sorted lists of hashes with the same elements are equal. *)
Lemma sorted_bytes_unique (l1 l2 : list bytes) :
  StronglySorted (key_le (fun h => h)) l1 ->
  StronglySorted (key_le (fun h => h)) l2 ->
  Permutation l1 l2 -> l1 = l2.
Proof.
  revert l2. induction l1 as [|a l1 IH]; intros l2 S1 S2 P.
  - apply Permutation_nil in P. now subst.
  - destruct l2 as [|b l2].
    + apply Permutation_sym, Permutation_nil in P. discriminate.
    + apply StronglySorted_inv in S1. destruct S1 as [S1 F1].
      apply StronglySorted_inv in S2. destruct S2 as [S2 F2].
      rewrite Forall_forall in F1, F2.
      assert (Hab : a = b).
      { assert (Ha : In a (b :: l2))
          by (eapply Permutation_in; [exact P|now left]).
        assert (Hb : In b (a :: l1))
          by (eapply Permutation_in; [exact (Permutation_sym P)|now left]).
        destruct Ha as [Ha|Ha]; [now subst|].
        destruct Hb as [Hb|Hb]; [now subst|].
        apply bytes_leb_antisym; [apply (F1 _ Hb) | apply (F2 _ Ha)]. }
      subst b. f_equal. apply IH; auto.
      now apply Permutation_cons_inv in P.
Qed.

(** ** Merkle roots *)

Lemma pair_up_nonempty (a b : bytes) (rest : list bytes) :
  pair_up (dup_last (a :: b :: rest)) <> [].
Proof.
  unfold dup_last. destruct (Nat.odd (length (a :: b :: rest)));
    simpl; discriminate.
Qed.

Lemma merkle_loop_step (l : list bytes) :
  (2 <= length l)%nat -> merkle_loop l = merkle_loop (pair_up (dup_last l)).
Proof.
  destruct l as [|a [|b rest]]; simpl; try lia.
  intros _. now simp merkle_loop.
Qed.

Lemma calc_merkle_root_step (l : list bytes) :
  (2 <= length l)%nat ->
  calc_merkle_root l = calc_merkle_root (pair_up (dup_last l)).
Proof.
  intros Hl. unfold calc_merkle_root.
  destruct l as [|a [|b rest]]; simpl in Hl; try lia.
  pose proof (pair_up_nonempty a b rest) as Hne.
  destruct (pair_up (dup_last (a :: b :: rest))) as [|p ps] eqn:E;
    [congruence|].
  rewrite <- E. now rewrite <- merkle_loop_step by (simpl; lia).
Qed.

Lemma dup_last_even (l : list bytes) :
  Nat.odd (length l) = false -> dup_last l = l.
Proof. unfold dup_last. now intros ->. Qed.

Lemma dup_last_odd (l : list bytes) :
  Nat.odd (length l) = true -> dup_last l = l ++ [last l []].
Proof. unfold dup_last. now intros ->. Qed.

(** C3 (amended).  [calc_merkle_root] pairs adjacent hashes level by level,
    duplicating the last hash of a level of odd length, until one hash is
    left; the empty list gives the root of one zero-filled 32-byte leaf, a
    single hash [h] gives [h] byte-reversed and hex-encoded, and a list of
    odd length with at least three hashes has the root of that list with
    its last hash appended once more. *)
Theorem calc_merkle_root_tree :
  calc_merkle_root [] = calc_merkle_root [zero_bytes 32]
  /\ (forall h, calc_merkle_root [h] = hfu (rev h))
  /\ (forall a b rest,
         pair_up (a :: b :: rest) = sha256d (a ++ b) :: pair_up rest)
  /\ (forall l, Nat.odd (length l) = false -> dup_last l = l)
  /\ (forall l, Nat.odd (length l) = true -> dup_last l = l ++ [last l []])
  /\ (forall l, (2 <= length l)%nat ->
                calc_merkle_root l = calc_merkle_root (pair_up (dup_last l)))
  /\ (forall l, (3 <= length l)%nat -> Nat.odd (length l) = true ->
                calc_merkle_root l = calc_merkle_root (l ++ [last l []])).
Proof.
  split; [reflexivity|].
  split; [intros h; unfold calc_merkle_root; now simp merkle_loop|].
  split; [reflexivity|].
  split; [|split; [|split]].
  - apply dup_last_even.
  - apply dup_last_odd.
  - apply calc_merkle_root_step.
  - intros l Hlen Hodd.
    rewrite (calc_merkle_root_step l) by lia.
    rewrite (calc_merkle_root_step (l ++ [last l []]))
      by (rewrite length_app; simpl; lia).
    rewrite (dup_last_odd l Hodd).
    rewrite dup_last_even; [reflexivity|].
    rewrite length_app. simpl. rewrite Nat.add_1_r, Nat.odd_succ.
    rewrite <- Nat.negb_odd, Hodd. reflexivity.
Qed.

Lemma calc_merkle_root_tree_witness :
  calc_merkle_root [Sample.hash_a; Sample.hash_b; Sample.hash_c]
  = calc_merkle_root ([Sample.hash_a; Sample.hash_b; Sample.hash_c]
                        ++ [last [Sample.hash_a; Sample.hash_b; Sample.hash_c]
                                 []]).
Proof.
  apply (proj2 (proj2 (proj2 (proj2 (proj2 (proj2 calc_merkle_root_tree)))))).
  - simpl. lia.
  - reflexivity.
Defined.

(** C3, as stated, fails for a list of one hash: its root is the hash
    itself, not the hash of the pair made by duplicating it. *)
Lemma calc_merkle_root_single_not_duplicated :
  Nat.odd (length [zero_bytes 32]) = true
  /\ calc_merkle_root [zero_bytes 32]
     <> calc_merkle_root ([zero_bytes 32] ++ [last [zero_bytes 32] []]).
Proof.
  split; [reflexivity|].
  vm_compute. discriminate.
Qed.

(** ** The order of the hashes under a merkle root *)

Lemma decorate_ok (items : list (string * bytes))
      (dec : list (bytes * (string * bytes))) :
  mapM (fun item => k <- sml_sort_key item ;; Ok (k, item)) items = Ok dec ->
  map snd dec = items
  /\ Forall (fun x => sml_sort_key (snd x) = Ok (fst x)) dec.
Proof.
  revert dec. induction items as [|it items IH]; simpl; intros dec E.
  - injection E as <-. split; constructor.
  - destruct (sml_sort_key it) as [k|e] eqn:Ek; simpl in E; [|discriminate].
    destruct (mapM _ items) as [dec'|e] eqn:Em; simpl in E; [|discriminate].
    injection E as <-. destruct (IH dec' eq_refl) as [Hm Hf].
    split; simpl; [now rewrite Hm | constructor; auto].
Qed.

Lemma filter_decorated (k : bytes) (dec : list (bytes * (string * bytes))) :
  Forall (fun x => sml_sort_key (snd x) = Ok (fst x)) dec ->
  map snd (filter (fun x => bytes_eqb (fst x) k) dec)
  = filter (has_sort_key k) (map snd dec).
Proof.
  induction 1 as [|x dec Hx Hf IH]; simpl; [reflexivity|].
  unfold has_sort_key at 1. rewrite Hx.
  destruct (bytes_eqb (fst x) k); simpl; now rewrite IH.
Qed.

Lemma Forall_perm_decorated (l l' : list (bytes * (string * bytes))) :
  Permutation l l' ->
  Forall (fun x => sml_sort_key (snd x) = Ok (fst x)) l' ->
  Forall (fun x => sml_sort_key (snd x) = Ok (fst x)) l.
Proof.
  intros P F. eapply Permutation_Forall; [symmetry; exact P | exact F].
Qed.

(** C4 (amended).  The masternode root is computed over the content hashes
    of the entries sorted ascending by the byte-reversed decoded key,
    entries of equal sort key staying in dictionary order; the quorum root
    over the content hashes sorted ascending by their own value, whatever
    their keys; each check succeeds exactly when the computed root is the
    hex form of the byte-reversed root of the commitment payload. *)
Theorem merkle_root_checks :
  (forall d hashes,
      sml_sorted_hashes d = Ok hashes ->
      exists dec,
        hashes = map (fun x => snd (snd x)) dec
        /\ Permutation (map snd dec) (dict_items d)
        /\ Forall (fun x => sml_sort_key (snd x) = Ok (fst x)) dec
        /\ StronglySorted (fun x y => bytes_leb (fst x) (fst y) = true) dec
        /\ forall k, map snd (filter (fun x => bytes_eqb (fst x) k) dec)
                     = filter (has_sort_key k) (dict_items d))
  /\ (forall item b, bfh (fst item) = Ok b -> sml_sort_key item = Ok (rev b))
  /\ (forall d cbtx_extra,
         check_sml_merkle_root d cbtx_extra = Ok true <->
         exists hashes,
           sml_sorted_hashes d = Ok hashes
           /\ calc_merkle_root hashes
              = hfu (rev (merkleRootMNList cbtx_extra)))
  /\ (forall d,
         Permutation (llmq_sorted_hashes d) (dict_values d)
         /\ StronglySorted (fun x y => bytes_leb x y = true)
                           (llmq_sorted_hashes d))
  /\ (forall d d',
         Permutation (dict_values d) (dict_values d') ->
         llmq_sorted_hashes d = llmq_sorted_hashes d')
  /\ (forall d cbtx_extra,
         check_llmq_merkle_root d cbtx_extra = true <->
         calc_merkle_root (llmq_sorted_hashes d)
         = hfu (rev (merkleRootQuorums cbtx_extra))).
Proof.
  split; [|split; [|split; [|split; [|split]]]].
  - intros d hashes E. unfold sml_sorted_hashes in E.
    destruct (mapM _ (dict_items d)) as [dec0|e] eqn:Em; simpl in E;
      [|discriminate].
    injection E as <-.
    destruct (decorate_ok _ Em) as [Hm Hf].
    exists (sorted (@fst bytes _) dec0).
    pose proof (sorted_perm (@fst bytes _) dec0) as P.
    assert (Hf' := Forall_perm_decorated P Hf).
    split; [reflexivity|].
    split; [rewrite <- Hm; now apply Permutation_map|].
    split; [exact Hf'|].
    split; [apply sorted_sorted|].
    intros k. rewrite sorted_stable. rewrite filter_decorated by exact Hf.
    now rewrite Hm.
  - intros item b E. unfold sml_sort_key. now rewrite E.
  - intros d cbtx_extra. unfold check_sml_merkle_root. split.
    + destruct (sml_sorted_hashes d) as [hashes|e]; simpl; [|discriminate].
      destruct (bytes_eqb _ _) eqn:E; simpl; [|discriminate].
      intros _. exists hashes. split; [reflexivity|]. now apply bytes_eqb_eq.
    + intros (hashes & -> & E). simpl.
      apply bytes_eqb_eq in E. now rewrite E.
  - intros d. split; [apply sorted_perm | apply sorted_sorted].
  - intros d d' P. unfold llmq_sorted_hashes.
    apply sorted_bytes_unique; try apply sorted_sorted.
    rewrite !sorted_perm. exact P.
  - intros d cbtx_extra. unfold check_llmq_merkle_root.
    destruct (bytes_eqb _ _) eqn:E; simpl.
    + apply bytes_eqb_eq in E. split; auto.
    + split; [discriminate|]. intros E'. apply bytes_eqb_eq in E'. congruence.
Qed.

Lemma merkle_root_checks_witness :
  exists dec,
    [Sample.hash_a; Sample.hash_b] = map (fun x => snd (snd x)) dec
    /\ Permutation (map snd dec) (dict_items Sample.sml_two)
    /\ Forall (fun x => sml_sort_key (snd x) = Ok (fst x)) dec
    /\ StronglySorted (fun x y => bytes_leb (fst x) (fst y) = true) dec
    /\ forall k, map snd (filter (fun x => bytes_eqb (fst x) k) dec)
                 = filter (has_sort_key k) (dict_items Sample.sml_two).
Proof.
  apply (proj1 merkle_root_checks Sample.sml_two).
  reflexivity.
Defined.

(** C4, as stated, fails: of two entries the one with the smaller
    byte-reversed key comes first, and a root computed over the descending
    order is refused. *)
Lemma sml_order_not_descending :
  sml_sorted_hashes Sample.sml_two = Ok [Sample.hash_a; Sample.hash_b]
  /\ sml_hashes_descending Sample.sml_two
     = Ok [Sample.hash_b; Sample.hash_a]
  /\ check_sml_merkle_root Sample.sml_two
       (Sample.cbtx_extra_for [Sample.hash_b; Sample.hash_a]) = Ok false
  /\ check_sml_merkle_root Sample.sml_two
       (Sample.cbtx_extra_for [Sample.hash_a; Sample.hash_b]) = Ok true.
Proof.
  split; [vm_compute; reflexivity|].
  split; [vm_compute; reflexivity|].
  split; vm_compute; reflexivity.
Qed.

(** ** The responsible quorum *)

(** C7.  [calc_responsible_quorum] returns, among the stored commitments
    of the requested type, one whose SHA-256d of type byte, quorum hash and
    request id is smallest in the order of [bytes]; it depends on the
    quorum map and its arguments only; it returns [None] exactly when no
    commitment has that type. *)
Theorem calc_responsible_quorum_smallest :
  forall (s : MNList) (llmqType_ : Z) (request_id : bytes),
    (forall q, quorum_sort_hash request_id q
               = sha256d ([llmqType q] ++ quorumHash q ++ request_id))
    /\ (forall s', quorums s' = quorums s ->
                   calc_responsible_quorum s' llmqType_ request_id
                   = calc_responsible_quorum s llmqType_ request_id)
    /\ match calc_responsible_quorum s llmqType_ request_id with
       | Some q =>
           In q (dict_values (quorums s))
           /\ byte_val (llmqType q) = llmqType_
           /\ forall q', In q' (dict_values (quorums s)) ->
                         byte_val (llmqType q') = llmqType_ ->
                         bytes_leb (quorum_sort_hash request_id q)
                                   (quorum_sort_hash request_id q') = true
       | None =>
           forall q', In q' (dict_values (quorums s)) ->
                      byte_val (llmqType q') <> llmqType_
       end.
Proof.
  intros s t rid. split; [reflexivity|].
  split; [intros s' E; unfold calc_responsible_quorum; now rewrite E|].
  unfold calc_responsible_quorum.
  set (cands := filter (fun q => byte_val (llmqType q) =? t)
                       (dict_values (quorums s))).
  set (res := map (fun q => (quorum_sort_hash rid q, q)) cands).
  destruct (sorted (@fst bytes _) res) as [|r rest] eqn:E.
  - intros q' Hin Ht.
    assert (Hc : In q' cands)
      by (apply filter_In; split; [exact Hin | now apply Z.eqb_eq]).
    assert (Hr : In (quorum_sort_hash rid q', q') res)
      by (apply in_map_iff; eauto).
    pose proof (sorted_perm (@fst bytes _) res) as P. rewrite E in P.
    apply Permutation_nil in P. rewrite P in Hr. destruct Hr.
  - destruct (sorted_head_least _ _ E) as [Hin Hleast].
    apply in_map_iff in Hin. destruct Hin as (q & <- & Hq).
    apply filter_In in Hq. destruct Hq as [Hq Ht]. simpl.
    split; [exact Hq|]. split; [now apply Z.eqb_eq|].
    intros q' Hin' Ht'.
    assert (Hc : In q' cands)
      by (apply filter_In; split; [exact Hin' | now apply Z.eqb_eq]).
    assert (Hr : In (quorum_sort_hash rid q', q') res)
      by (apply in_map_iff; eauto).
    exact (Hleast _ Hr).
Qed.

(** ** Readiness *)



(* ===================================================================== *)
(** * Further properties of the module                                    *)
(* ===================================================================== *)

(** ** Chunk boundaries *)

(** X1.  For a positive chunk size, [calc_max_height] returns the last
    height of a chunk: one more is a multiple of the chunk size; it lies
    strictly above the base height and at most one chunk above it; the
    [height] argument has no influence. *)
Theorem calc_max_height_chunk_end :
  forall (C : NetConstants) (base_height height height' : Z),
    0 < CHUNK_SIZE ->
    (calc_max_height base_height height + 1) mod CHUNK_SIZE = 0
    /\ base_height < calc_max_height base_height height
    /\ calc_max_height base_height height <= base_height + CHUNK_SIZE
    /\ calc_max_height base_height height
       = calc_max_height base_height height'.
Proof.
  intros C b h h' Hc. unfold calc_max_height.
  set (c := @CHUNK_SIZE C) in *.
  destruct (Z.eqb_spec ((b + 1) mod c) 0) as [E|E].
  - repeat split; try (clear E; lia).
    replace (b + c + 1) with (b + 1 + 1 * c)
      by (clear; lia).
    now rewrite Z.mod_add by lia.
  - pose proof (Z.div_mod (b + c) c ltac:(lia)) as D.
    pose proof (Z.mod_pos_bound (b + c) c Hc) as B.
    set (q := (b + c) / c) in *.
    set (r := (b + c) mod c) in *.
    assert (Hne : r <> c - 1).
    { intros Hr. apply E.
      replace (b + 1) with (0 + q * c) by (clear E; nia).
      rewrite Z.mod_add by lia. now apply Z.mod_small. }
    repeat split; try (clear E; nia).
    replace (q * c - 1 + 1) with (0 + q * c)
      by (clear; lia).
    rewrite Z.mod_add by lia. now apply Z.mod_small.
Qed.

Lemma calc_max_height_chunk_end_witness :
  (@calc_max_height Sample.mainnet 2015 0 + 1) mod 2016 = 0
  /\ 2015 < @calc_max_height Sample.mainnet 2015 0
  /\ @calc_max_height Sample.mainnet 2015 0 <= 2015 + 2016
  /\ @calc_max_height Sample.mainnet 2015 0
     = @calc_max_height Sample.mainnet 2015 7.
Proof.
  apply (calc_max_height_chunk_end Sample.mainnet 2015 0 7).
  reflexivity.
Defined.
(** ** The partial merkle tree *)

Lemma flag_bits_bits (flags_n : Z) :
  length (flag_bits flags_n) = 8%nat
  /\ Forall (fun f => f = 0 \/ f = 1) (flag_bits flags_n).
Proof.
  unfold flag_bits. split; [reflexivity|].
  apply Forall_forall. intros f Hf. apply in_map_iff in Hf.
  destruct Hf as (i & <- & _).
  assert (E : Z.land (Z.shiftr flags_n (Z.of_nat i)) 1
              = Z.shiftr flags_n (Z.of_nat i) mod 2)
    by (change 1 with (Z.ones 1); rewrite Z.land_ones by lia; reflexivity).
  rewrite E.
  pose proof (Z.mod_pos_bound (Z.shiftr flags_n (Z.of_nat i)) 2
                              ltac:(lia)) as B.
  lia.
Qed.

Section PartialMerkleTreeFacts.

Context {S : Type} `{BCDataStream S}.

Lemma read_pmt_hashes_length (n : nat) (vds vds' : S) (hashes : list string) :
  read_pmt_hashes n vds = Ok (hashes, vds') -> length hashes = n.
Proof.
  revert vds vds' hashes. induction n as [|n IH]; simpl; intros vds vds' hs E.
  - now injection E as <- _.
  - destruct (read_bytes vds 32) as [r|e]; simpl in E; [|discriminate].
    destruct (read_pmt_hashes n (snd r)) as [[l s']|e] eqn:Er; simpl in E;
      [|discriminate].
    injection E as <- _. simpl. f_equal.
    eapply IH. exact Er.
Qed.

Lemma read_pmt_flags_bits (n : nat) (vds vds' : S) (flags : list Z) :
  read_pmt_flags n vds = Ok (flags, vds') ->
  length flags = (8 * n)%nat /\ Forall (fun f => f = 0 \/ f = 1) flags.
Proof.
  revert vds vds' flags.
  induction n as [|n IH]; intros vds vds' fl E; cbn [read_pmt_flags] in E.
  - injection E as <- _. split; [reflexivity | constructor].
  - destruct (read_uchar vds) as [r|e]; cbn [bind] in E; [|discriminate].
    destruct (read_pmt_flags n (snd r)) as [[l s']|e] eqn:Er;
      cbn [bind fst snd] in E; [|discriminate].
    injection E as <- _.
    destruct (IH _ _ _ Er) as [Hl Hf].
    destruct (flag_bits_bits (fst r)) as [Hl8 Hf8].
    split.
    + change (length (flag_bits (fst r) ++ l) = (8 * Datatypes.S n)%nat).
      rewrite length_app, Hl8, Hl. lia.
    + change (Forall (fun f => f = 0 \/ f = 1) (flag_bits (fst r) ++ l)).
      apply Forall_app. split; assumption.
Qed.


End PartialMerkleTreeFacts.


(** ** The coinbase transaction in its block *)

Section CheckCbTxFacts.

Context {S : Type} `{BCDataStream S} `{SPV}.

(** X3.  [check_cbtx_merkle_root] without a merkle tree: with no hash list
    either it answers [False]; an empty hash list makes it raise
    [IndexError]; a first hash other than the transaction id is refused
    whatever follows; with the transaction id as the only hash it
    succeeds exactly when the header at the commitment's height exists
    and records that id as its merkle root.  When a merkle tree is given
    the hash list is not looked at. *)
Theorem check_cbtx_merkle_root_cases :
  forall (s : MNList) (cbtx : Transaction) (merkle_tree : option string),
    (str_truthy merkle_tree = false ->
     check_cbtx_merkle_root s cbtx merkle_tree None = Ok false
     /\ check_cbtx_merkle_root s cbtx merkle_tree (Some []) = Raise IndexError
     /\ (forall h rest,
            bh2u (rev h) <> txid cbtx ->
            check_cbtx_merkle_root s cbtx merkle_tree (Some (h :: rest))
            = Ok false)
     /\ (forall h,
            bh2u (rev h) = txid cbtx ->
            (check_cbtx_merkle_root s cbtx merkle_tree (Some [h]) = Ok true
             <-> exists hdr,
                 read_header (network s) (cb_height (extra_payload cbtx))
                 = Some hdr
                 /\ hdr_merkle_root hdr = Some (txid cbtx))
            /\ (check_cbtx_merkle_root s cbtx merkle_tree (Some [h])
                = Ok true
                \/ check_cbtx_merkle_root s cbtx merkle_tree (Some [h])
                   = Ok false)))
    /\ (str_truthy merkle_tree = true ->
        forall hashes hashes',
          check_cbtx_merkle_root s cbtx merkle_tree hashes
          = check_cbtx_merkle_root s cbtx merkle_tree hashes').
Proof.
  intros s cbtx mt. split.
  - intros F. unfold check_cbtx_merkle_root. rewrite F.
    split; [reflexivity|]. split; [reflexivity|]. split.
    + intros h rest Hne. unfold check_cbtx_against. cbn [map].
      assert (E : String.eqb (txid cbtx) (bh2u (rev h)) = false)
        by (apply String.eqb_neq; congruence).
      now rewrite E.
    + intros h Heq. unfold check_cbtx_against. cbn [map length].
      rewrite Heq, String.eqb_refl. cbn [negb Nat.ltb Nat.leb bind].
      destruct (read_header (network s) (cb_height (extra_payload cbtx)))
        as [hdr|]; [destruct (hdr_merkle_root hdr) as [mr|] eqn:Em|].
      * destruct (String.eqb mr (txid cbtx)) eqn:E; cbn [negb]; split;
          try (now left); try (now right).
        -- apply String.eqb_eq in E. subst mr. split; [|reflexivity].
           intros _. now exists hdr.
        -- split; [discriminate|]. intros (hdr' & Eh & Er).
           injection Eh as <-. rewrite Em in Er. injection Er as ->.
           rewrite String.eqb_refl in E. discriminate.
      * split; [|now right]. split; [discriminate|].
        intros (hdr' & Eh & Er). injection Eh as <-. congruence.
      * split; [|now right]. split; [discriminate|].
        intros (hdr' & Eh & _). discriminate.
  - intros T hashes hashes'. unfold check_cbtx_merkle_root. now rewrite T.
Qed.

End CheckCbTxFacts.

Lemma check_cbtx_merkle_root_cases_witness :
  @check_cbtx_merkle_root _ Sample.byte_stream Sample.no_branch
    SampleChain.engine SampleChain.cbtx None (Some [Sample.hash_a]) = Ok true.
Proof.
  destruct (@check_cbtx_merkle_root_cases _ Sample.byte_stream Sample.no_branch
              SampleChain.engine SampleChain.cbtx None) as [Hn _].
  destruct (Hn eq_refl) as (_ & _ & _ & Hone).
  destruct (Hone Sample.hash_a eq_refl) as [Hiff _].
  apply Hiff.
  exists {| hdr_merkle_root := Some SampleChain.coinbase_txid |}.
  split; reflexivity.
Defined.

(** ** Notifications *)

Ltac destruct_world w :=
  destruct w as [[f_network f_config_path f_dash_net_enabled f_load_mns
                    f_recent_list f_protx_info f_last_save f_mns_outpoints
                    f_protx_height f_llmq_height f_protx_mns f_sml_hashes
                    f_quorums f_llmq_hashes f_protx_state f_diff_deleted_mns
                    f_diff_hashes f_info_hash f_sent_getmnlistd
                    f_sent_protx_diff f_blockchain_loaded f_wallets_updated]
                   g_default g_fs g_clock g_events].

(** X4.  [notify('mn-list-diff-updated')] hands the pending lists of
    deleted and added masternodes to the callback together with the state
    flag and clears them, so that a second notification carries empty
    lists; the snapshot, the recent list and the files are not touched.
    [notify('mn-list-info-updated')] does the same with [info_hash]; any
    other key triggers the callback with [None] and changes nothing. *)
Theorem notify_hands_over_once :
  forall (w : World),
    (exists w1 w2,
        notify "mn-list-diff-updated" w = (Ok tt, w1)
        /\ events w1
           = TriggerCallback "mn-list-diff-updated"
               (CbDiff (protx_state (self w)) (diff_deleted_mns (self w))
                       (diff_hashes (self w))) :: events w
        /\ diff_deleted_mns (self w1) = []
        /\ diff_hashes (self w1) = []
        /\ notify "mn-list-diff-updated" w1 = (Ok tt, w2)
        /\ events w2
           = TriggerCallback "mn-list-diff-updated"
               (CbDiff (protx_state (self w)) [] []) :: events w1
        /\ snapshot (self w2) = snapshot (self w)
        /\ the_recent_list w2 = the_recent_list w
        /\ fs w2 = fs w)
    /\ (exists w1,
           notify "mn-list-info-updated" w = (Ok tt, w1)
           /\ events w1
              = TriggerCallback "mn-list-info-updated"
                  (CbInfo (info_hash (self w))) :: events w
           /\ info_hash (self w1) = ""%string
           /\ diff_deleted_mns (self w1) = diff_deleted_mns (self w)
           /\ diff_hashes (self w1) = diff_hashes (self w)
           /\ snapshot (self w1) = snapshot (self w))
    /\ (forall key,
           key <> "mn-list-diff-updated"%string ->
           key <> "mn-list-info-updated"%string ->
           notify key w = emit (TriggerCallback key CbNone) w).
Proof.
  intros w. split; [|split].
  - destruct_world w. do 2 eexists.
    split; [lazy; reflexivity|].
    split; [reflexivity|]. split; [reflexivity|]. split; [reflexivity|].
    split; [lazy; reflexivity|].
    repeat split.
  - destruct_world w. eexists.
    split; [lazy; reflexivity|]. repeat split.
  - intros key H1 H2. unfold notify.
    apply String.eqb_neq in H1, H2.
    cbv beta iota delta [bindM get_self ret]. now rewrite H1, H2.
Qed.

(** ** Dictionaries *)

Section DictFacts.

Variable V : Type.

Lemma dict_get_not_in (d : dict V) (k : string) :
  ~ In k (dict_keys d) -> dict_get d k = None.
Proof.
  induction d as [|[k' v] d IH]; simpl; [reflexivity|]. intros Hn.
  destruct (String.eqb_spec k k') as [->|Hne]; [tauto|]. apply IH. tauto.
Qed.

Lemma dict_get_in (d : dict V) (k : string) (v : V) :
  dict_get d k = Some v -> In (k, v) d.
Proof.
  induction d as [|[k' v'] d IH]; simpl; [discriminate|].
  destruct (String.eqb_spec k k') as [->|Hne].
  - intros E. injection E as ->. now left.
  - intros E. right. auto.
Qed.

Lemma dict_del_keys_incl (d : dict V) (k k' : string) :
  In k' (dict_keys (dict_del d k)) -> In k' (dict_keys d).
Proof.
  induction d as [|[k0 v0] d IH]; simpl; [tauto|].
  destruct (String.eqb k k0); simpl; tauto.
Qed.

Lemma dict_del_ok (d : dict V) (k : string) :
  dict_ok d -> dict_ok (dict_del d k).
Proof.
  unfold dict_ok. induction d as [|[k0 v0] d IH]; simpl; [auto|].
  intros Hd. inversion Hd as [|? ? Hn Hd']; subst.
  destruct (String.eqb k k0); [exact Hd'|]. simpl. constructor; auto.
  intros Hin. apply Hn. eapply dict_del_keys_incl; eauto.
Qed.

Lemma dict_get_del_other (d : dict V) (k k' : string) :
  k <> k' -> dict_get (dict_del d k) k' = dict_get d k'.
Proof.
  intros Hne. induction d as [|[k0 v0] d IH]; simpl; [reflexivity|].
  destruct (String.eqb_spec k k0) as [->|Hk].
  - destruct (String.eqb_spec k' k0) as [->|_]; [congruence | reflexivity].
  - simpl. now rewrite IH.
Qed.

Lemma dict_get_del_same (d : dict V) (k : string) :
  dict_ok d -> dict_get (dict_del d k) k = None.
Proof.
  unfold dict_ok. induction d as [|[k0 v0] d IH]; simpl; [reflexivity|].
  intros Hd. inversion Hd as [|? ? Hn Hd']; subst.
  destruct (String.eqb_spec k k0) as [->|Hk].
  - now apply dict_get_not_in.
  - simpl. destruct (String.eqb_spec k k0); [congruence|]. auto.
Qed.

Lemma dict_get_set_same (d : dict V) (k : string) (v : V) :
  dict_get (dict_set d k v) k = Some v.
Proof.
  induction d as [|[k0 v0] d IH]; simpl.
  - now rewrite String.eqb_refl.
  - destruct (String.eqb_spec k k0) as [->|Hk]; simpl.
    + now rewrite String.eqb_refl.
    + destruct (String.eqb_spec k k0); [congruence | exact IH].
Qed.

Lemma dict_get_set_other (d : dict V) (k k' : string) (v : V) :
  k <> k' -> dict_get (dict_set d k v) k' = dict_get d k'.
Proof.
  intros Hne. induction d as [|[k0 v0] d IH]; simpl.
  - destruct (String.eqb_spec k' k); [congruence | reflexivity].
  - destruct (String.eqb_spec k k0) as [->|Hk]; simpl.
    + destruct (String.eqb_spec k' k0); [congruence | reflexivity].
    + now rewrite IH.
Qed.

Lemma dict_set_keys (d : dict V) (k k' : string) (v : V) :
  In k' (dict_keys (dict_set d k v)) <-> k' = k \/ In k' (dict_keys d).
Proof.
  induction d as [|[k0 v0] d IH]; simpl.
  - intuition.
  - destruct (String.eqb_spec k k0) as [->|Hk]; simpl.
    + intuition.
    + rewrite IH. intuition.
Qed.

Lemma dict_set_ok (d : dict V) (k : string) (v : V) :
  dict_ok d -> dict_ok (dict_set d k v).
Proof.
  unfold dict_ok. induction d as [|[k0 v0] d IH]; simpl.
  - intros _. repeat constructor. simpl. tauto.
  - intros Hd. inversion Hd as [|? ? Hn Hd']; subst.
    destruct (String.eqb_spec k k0) as [->|Hk]; simpl.
    + now constructor.
    + constructor; auto. rewrite dict_set_keys. intros [->|Hin]; tauto.
Qed.

Lemma dict_get_filter_key (p : string -> bool) (d : dict V) (k : string) :
  dict_get (filter (fun kv => p (fst kv)) d) k
  = if p k then dict_get d k else None.
Proof.
  induction d as [|[k0 v0] d IH]; simpl; [now destruct (p k)|].
  destruct (p k0) eqn:E0; simpl.
  - destruct (String.eqb_spec k k0) as [->|Hk]; [now rewrite E0 | exact IH].
  - rewrite IH. destruct (String.eqb_spec k k0) as [->|Hk]; [|reflexivity].
    now rewrite E0.
Qed.

Lemma dict_get_del_all (l : list string) (d : dict V) (k : string) :
  dict_ok d ->
  dict_get (fold_left (fun d h => dict_del d h) l d) k
  = if str_in k l then None else dict_get d k.
Proof.
  revert d. induction l as [|h l IH]; intros d Hd; [reflexivity|].
  cbn [fold_left]. rewrite IH by now apply dict_del_ok.
  unfold str_in. cbn [existsb].
  destruct (String.eqb_spec k h) as [->|Hne]; cbn [orb].
  - rewrite dict_get_del_same by exact Hd. now destruct (existsb _ l).
  - rewrite dict_get_del_other by congruence. reflexivity.
Qed.

End DictFacts.

(** ** Forgetting masternode information *)

(** X5.  After a diff has been applied, the handlers drop from
    [protx_info] every entry whose key is among the deleted or the added
    masternodes of the diff and keep every other entry as it is; nothing
    else of the engine changes. *)
Theorem forget_protx_info_drops_changed :
  forall (w : World),
    dict_ok (protx_info (self w)) ->
    exists w',
      forget_protx_info w = (Ok tt, w')
      /\ (forall h,
             dict_get (protx_info (self w')) h
             = if str_in h (diff_deleted_mns (self w))
                  || str_in h (diff_hashes (self w))
               then None
               else dict_get (protx_info (self w)) h)
      /\ snapshot (self w') = snapshot (self w)
      /\ diff_deleted_mns (self w') = diff_deleted_mns (self w)
      /\ diff_hashes (self w') = diff_hashes (self w)
      /\ mns_outpoints (self w') = mns_outpoints (self w)
      /\ the_recent_list w' = the_recent_list w
      /\ fs w' = fs w
      /\ events w' = events w.
Proof.
  intros w Hok. destruct_world w. cbn [self protx_info] in Hok.
  eexists. split; [lazy -[fold_left filter dict_del str_in negb fst]; reflexivity|].
  split; [|repeat split].
  intros h. cbn [self protx_info diff_deleted_mns diff_hashes].
  rewrite (dict_get_filter_key (fun k => negb (str_in k f_diff_hashes))).
  rewrite dict_get_del_all by exact Hok.
  destruct (str_in h f_diff_deleted_mns), (str_in h f_diff_hashes);
    reflexivity.
Qed.

Lemma forget_protx_info_drops_changed_witness :
  exists w',
    forget_protx_info SampleInfo.world = (Ok tt, w')
    /\ (forall h,
           dict_get (protx_info (self w')) h
           = if str_in h (diff_deleted_mns (self SampleInfo.world))
                || str_in h (diff_hashes (self SampleInfo.world))
             then None
             else dict_get (protx_info (self SampleInfo.world)) h)
    /\ snapshot (self w') = snapshot (self SampleInfo.world)
    /\ diff_deleted_mns (self w') = diff_deleted_mns (self SampleInfo.world)
    /\ diff_hashes (self w') = diff_hashes (self SampleInfo.world)
    /\ mns_outpoints (self w') = mns_outpoints (self SampleInfo.world)
    /\ the_recent_list w' = the_recent_list SampleInfo.world
    /\ fs w' = fs SampleInfo.world
    /\ events w' = events SampleInfo.world.
Proof.
  apply (forget_protx_info_drops_changed SampleInfo.world).
  repeat constructor; simpl; intuition discriminate.
Defined.

(** ** Saving the snapshot files *)

Lemma fs_get_set_other (f : dict file) (p p' : string) (x : file) :
  p' <> p -> dict_get (dict_set f p x) p' = dict_get f p'.
Proof. intros Hne. apply dict_get_set_other. congruence. Qed.

(** X6.  [_save_recent_list] never raises and changes nothing but the
    file system, and there nothing but the recent-list file: without a
    configured path it writes nothing; when the document can be built and
    the file can be opened for writing the file holds that document;
    otherwise the error is swallowed and the file system is left as it
    was. *)
Theorem save_recent_list_effect :
  forall (w : World),
    let path := path_join (config_path_str (self w)) RECENT_LIST_FNAME in
    exists w',
      _save_recent_list w = (Ok tt, w')
      /\ self w' = self w
      /\ default_mn_list w' = default_mn_list w
      /\ events w' = events w
      /\ clock w' = clock w
      /\ (forall p, p <> path ->
                    dict_get (fs_files (fs w')) p
                    = dict_get (fs_files (fs w)) p)
      /\ (str_truthy (config_path (self w)) = false -> fs w' = fs w)
      /\ (forall e, recent_list_document (the_recent_list w) = Raise e ->
                    fs w' = fs w)
      /\ (fs_writable (fs w) path = false -> fs w' = fs w)
      /\ (forall doc,
             str_truthy (config_path (self w)) = true ->
             recent_list_document (the_recent_list w) = Ok doc ->
             fs_writable (fs w) path = true ->
             dict_get (fs_files (fs w')) path = Some (Document doc)).
Proof.
  intros w path. unfold _save_recent_list.
  cbv beta iota delta [bindM get_self ret raise lift try_except
                         gzip_write_json get_fs put_fs].
  destruct (str_truthy (config_path (self w))) eqn:T; cbn [negb].
  - fold path.
    destruct (recent_list_document (the_recent_list w)) as [doc|e] eqn:D.
    + destruct (fs_writable (fs w) path) eqn:Wr.
      * eexists. split; [reflexivity|].
        cbn [self default_mn_list events clock fs fs_files].
        do 4 (split; [reflexivity|]).
        split; [intros p Hp; now apply fs_get_set_other|].
        split; [discriminate|]. split; [discriminate|].
        split; [discriminate|].
        intros doc' _ E _. injection E as <-. apply dict_get_set_same.
      * exists w. do 5 (split; [reflexivity|]).
        split; [reflexivity|]. split; [reflexivity|].
        split; [reflexivity|]. split; [reflexivity|]. discriminate.
    + exists w. do 5 (split; [reflexivity|]).
      split; [reflexivity|]. split; [reflexivity|].
      split; [reflexivity|]. split; [reflexivity|]. discriminate.
  - exists w. do 5 (split; [reflexivity|]).
    split; [reflexivity|]. split; [reflexivity|].
    split; [reflexivity|]. split; [reflexivity|]. discriminate.
Qed.

Lemma save_recent_list_effect_witness :
  exists w' doc,
    _save_recent_list SampleInfo.world = (Ok tt, w')
    /\ recent_list_document (the_recent_list SampleInfo.world) = Ok doc
    /\ dict_get (fs_files (fs w')) "/data/recent_protx_list.gz"
       = Some (Document doc).
Proof.
  destruct (save_recent_list_effect SampleInfo.world)
    as (w' & E & _ & _ & _ & _ & _ & _ & _ & _ & Hw).
  exists w'. eexists. split; [exact E|]. split; [reflexivity|].
  apply Hw; reflexivity.
Defined.



(** ** Hex strings *)

Lemma bfh_bh2u_cons (x : byte) (b : bytes) :
  bfh (bh2u (x :: b)) = (r <- bfh (bh2u b) ;; Ok (x :: r)).
Proof. destruct x; reflexivity. Qed.

Lemma bfh_bh2u (b : bytes) : bfh (bh2u b) = Ok b.
Proof.
  induction b as [|x b IH]; [reflexivity|].
  rewrite bfh_bh2u_cons, IH. reflexivity.
Qed.

(** ** Saving and loading the recent list *)

Lemma mapM_pure (A B : Type) (f : A -> result B) (g : A -> B) (l : list A) :
  (forall x, In x l -> f x = Ok (g x)) -> mapM f l = Ok (map g l).
Proof.
  induction l as [|a l IH]; intros Hf; [reflexivity|].
  cbn [mapM map]. rewrite (Hf a) by now left. cbn [bind].
  rewrite IH by (intros x Hx; apply Hf; now right). reflexivity.
Qed.

Lemma dict_get_unique (V : Type) (d : dict V) (k : string) (v : V) :
  dict_ok d -> In (k, v) d -> dict_get d k = Some v.
Proof.
  unfold dict_ok. induction d as [|[k0 v0] d IH]; simpl; [tauto|].
  intros Hd Hin. inversion Hd as [|? ? Hn Hd']; subst.
  destruct Hin as [E|Hin].
  - injection E as -> ->. now rewrite String.eqb_refl.
  - destruct (String.eqb_spec k k0) as [->|Hne]; [|auto].
    exfalso. apply Hn. change k0 with (fst (k0, v)). now apply in_map.
Qed.

Lemma dict_get_map_values (A B : Type) (g : A -> B) (d : dict A)
      (k : string) :
  dict_get (map (fun kv => (fst kv, g (snd kv))) d) k
  = option_map g (dict_get d k).
Proof.
  induction d as [|[k0 v0] d IH]; simpl; [reflexivity|].
  destruct (String.eqb k k0); [reflexivity | exact IH].
Qed.

Lemma read_back_items (A : Type) (f : json -> result A) (enc : A -> json)
      (d : dict A) :
  (forall k a, In (k, a) d -> f (enc a) = Ok a) ->
  mapM (fun kv => a <- f (snd kv) ;; Ok (fst kv, a))
       (map (fun kv => (fst kv, enc (snd kv))) d) = Ok d.
Proof.
  induction d as [|[k a] d IH]; intros Hf; [reflexivity|].
  cbn [mapM map fst snd]. rewrite (Hf k a) by now left. cbn [bind].
  rewrite IH by (intros k' a' Hin; apply (Hf k'); now right). reflexivity.
Qed.

Lemma recent_list_document_wf (rl : dict rl_value) :
  recent_list_wf rl ->
  recent_list_document rl
  = Ok (JDict (map (fun kv => (fst kv, hex_json (snd kv))) rl)).
Proof.
  intros (Hok & [mns Hm] & [sh Hs] & [qs Hq] & [lh Hl] & Hrest).
  unfold recent_list_document, hex_of_messages, hex_of_hashes.
  rewrite Hm, Hs, Hq, Hl. cbn [bind].
  rewrite (@mapM_pure _ _ _ (fun kv => (fst kv, hex_json (snd kv))));
    [reflexivity|].
  intros [k v] Hin. cbn [fst snd].
  pose proof (dict_get_unique _ _ Hok Hin) as Hg.
  rewrite Forall_forall in Hrest. specialize (Hrest _ Hin).
  unfold is_map_key in Hrest. cbn [fst snd] in Hrest.
  destruct (String.eqb_spec k "protx_mns") as [->|_];
    [rewrite Hm in Hg; injection Hg as <-; reflexivity|].
  destruct (String.eqb_spec k "sml_hashes") as [->|_];
    [rewrite Hs in Hg; injection Hg as <-; reflexivity|].
  destruct (String.eqb_spec k "quorums") as [->|_];
    [rewrite Hq in Hg; injection Hg as <-; reflexivity|].
  destruct (String.eqb_spec k "llmq_hashes") as [->|_];
    [rewrite Hl in Hg; injection Hg as <-; reflexivity|].
  destruct (Hrest eq_refl) as [j ->]. reflexivity.
Qed.

Lemma bfh_rev_json_hex (v : bytes) :
  bfh_rev_json (JStr (bh2u (rev v))) = Ok v.
Proof.
  unfold bfh_rev_json. rewrite bfh_bh2u. cbn [bind]. now rewrite rev_involutive.
Qed.

Section RoundTrip.

Context `{DashMsg}.

Lemma read_values_from_hex_document (rl : dict rl_value) :
  recent_list_wf rl ->
  messages_read_back rl ->
  read_values_from_hex
    (JDict (map (fun kv => (fst kv, hex_json (snd kv))) rl)) = Ok rl.
Proof.
  intros (Hok & [mns Hm] & [sh Hs] & [qs Hq] & [lh Hl] & Hrest) [Lm Lq].
  unfold read_values_from_hex, convert_items, json_subscript, json_items.
  rewrite !dict_get_map_values, Hm, Hs, Hq, Hl.
  cbn [option_map hex_json bind].
  rewrite (read_back_items sml_from_hex
             (fun e => JStr (bh2u (sml_serialize e))))
    by (intros k e Hin; eapply Lm; eauto).
  cbn [bind].
  rewrite (read_back_items bfh_rev_json (fun v => JStr (bh2u (rev v))))
    by (intros; apply bfh_rev_json_hex).
  cbn [bind].
  rewrite (read_back_items qfcommit_from_hex
             (fun q => JStr (bh2u (qf_serialize q))))
    by (intros k q Hin; eapply Lq; eauto).
  cbn [bind].
  rewrite (read_back_items bfh_rev_json (fun v => JStr (bh2u (rev v))))
    by (intros; apply bfh_rev_json_hex).
  cbn [bind]. f_equal. rewrite map_map.
  rewrite <- (map_id rl) at 2. apply map_ext_in.
  intros [k v] Hin. cbn [fst snd].
  pose proof (dict_get_unique _ _ Hok Hin) as Hg.
  rewrite Forall_forall in Hrest. specialize (Hrest _ Hin).
  unfold is_map_key in Hrest. cbn [fst snd] in Hrest.
  destruct (String.eqb_spec k "protx_mns") as [->|_];
    [rewrite Hm in Hg; injection Hg as <-; reflexivity|].
  destruct (String.eqb_spec k "sml_hashes") as [->|_];
    [rewrite Hs in Hg; injection Hg as <-; reflexivity|].
  destruct (String.eqb_spec k "quorums") as [->|_];
    [rewrite Hq in Hg; injection Hg as <-; reflexivity|].
  destruct (String.eqb_spec k "llmq_hashes") as [->|_];
    [rewrite Hl in Hg; injection Hg as <-; reflexivity|].
  destruct (Hrest eq_refl) as [j ->]. reflexivity.
Qed.

Lemma read_recent_list_document (w : World) (doc : json)
      (rl : dict rl_value) :
  str_truthy (config_path (self w)) = true ->
  dict_get (fs_files (fs w))
           (path_join (config_path_str (self w)) RECENT_LIST_FNAME)
  = Some (Document doc) ->
  read_values_from_hex doc = Ok rl ->
  _read_recent_list w = (Ok (RefOwn rl), w).
Proof.
  intros T G R. unfold _read_recent_list.
  cbv beta iota delta [bindM get_self ret raise lift try_except
                         gzip_read_json get_fs].
  rewrite T. cbn [negb]. rewrite G, R. reflexivity.
Qed.


End RoundTrip.


(** ** The handlers of the event bus *)

Lemma request_loading_choice (s : MNList) :
  requests (request_loading s)
  = if dash_net_enabled s then
      if llmq_loading s then [GetMNListD false]
      else if protx_loading s then [GetMNListD true] else []
    else if protx_loading s then [RequestProtxDiff] else [].
Proof.
  unfold request_loading.
  destruct (dash_net_enabled s), (llmq_loading s), (protx_loading s);
    reflexivity.
Qed.

(** X9.  A handler of the event bus sends at most one diff request, and
    only for what is loading: with the Dash network enabled the full
    request while the quorum side is behind, otherwise the
    masternode-only request while the masternode list is behind; with
    the Dash network disabled the [protx.diff] request while the
    masternode list is behind.  Until the wallets are up to date only
    [on_network_error] sends a request. *)
Theorem handlers_request_what_is_loading :
  forall (ev : bus_event) (s : MNList),
    let s' := fst (handle ev s) in
    let sent := requests (snd (handle ev s)) in
    (sent = []
     \/ (sent = [GetMNListD false]
         /\ dash_net_enabled s' = true /\ llmq_loading s' = true)
     \/ (sent = [GetMNListD true]
         /\ dash_net_enabled s' = true /\ llmq_loading s' = false
         /\ protx_loading s' = true)
     \/ (sent = [RequestProtxDiff]
         /\ dash_net_enabled s' = false /\ protx_loading s' = true))
    /\ (wallets_updated s = false -> ev <> NetworkError -> sent = [])
    /\ (ev = NetworkError -> sent = requests (request_loading s)).
Proof.
  intros ev s.
  assert (Hc : forall s0 : MNList,
             let sent := requests (request_loading s0) in
             sent = []
             \/ (sent = [GetMNListD false]
                 /\ dash_net_enabled s0 = true /\ llmq_loading s0 = true)
             \/ (sent = [GetMNListD true]
                 /\ dash_net_enabled s0 = true /\ llmq_loading s0 = false
                 /\ protx_loading s0 = true)
             \/ (sent = [RequestProtxDiff]
                 /\ dash_net_enabled s0 = false /\ protx_loading s0 = true)).
  { intros s0. cbv zeta. rewrite request_loading_choice.
    destruct (dash_net_enabled s0), (llmq_loading s0), (protx_loading s0);
      tauto. }
  destruct ev as [conn|cc ws|ws|cc| |status]; cbn [handle].
  - unfold on_network_status.
    destruct (wallets_updated s) eqn:W; cbn [negb fst snd].
    + destruct (dash_net_enabled s) eqn:D; cbn [negb andb fst snd];
        [|destruct conn; cbn [andb];
          [destruct (protx_loading s) eqn:P|]];
        cbn [fst snd requests flat_map app];
        (split; [tauto|split; [discriminate|discriminate]]).
    + cbn [requests flat_map]. split; [tauto|]. split; [reflexivity|].
      discriminate.
  - unfold on_bchain_updated, on_wallet_updated.
    destruct (blockchain_loaded s) eqn:B; destruct cc;
      cbn [negb andb blockchain_loaded wallets_updated
           set_blockchain_loaded];
      rewrite ?B; cbn [negb];
      destruct (wallets_updated s) eqn:W; cbn [negb];
      try destruct (forallb _ ws);
      cbn [fst snd requests flat_map app];
      (split; [tauto|split; [reflexivity || discriminate|discriminate]]).
  - unfold on_wallet_updated.
    destruct (blockchain_loaded s) eqn:B; cbn [negb];
      destruct (wallets_updated s) eqn:W; cbn [negb];
      try destruct (forallb _ ws);
      cbn [fst snd requests flat_map app];
      (split; [tauto|split; [reflexivity || discriminate|discriminate]]).
  - unfold on_network_updated.
    destruct (wallets_updated s) eqn:W; cbn [negb fst snd].
    + destruct (negb (blockchain_loaded s) && cc);
        cbn [app requests flat_map];
        (split; [apply Hc|split; [discriminate|discriminate]]).
    + destruct (negb (blockchain_loaded s) && cc);
        cbn [requests flat_map app];
        (split; [tauto|split; [reflexivity|discriminate]]).
  - unfold on_network_error. cbn [fst snd].
    split; [apply Hc|]. split; [congruence|reflexivity].
  - unfold on_dash_net_updated.
    destruct (String.eqb status "enabled");
      [|destruct (String.eqb status "disabled")];
      cbn [wallets_updated set_dash_net_enabled];
      destruct (wallets_updated s) eqn:W; cbn [negb fst snd];
      first [ split; [apply Hc|split; [discriminate|discriminate]]
            | cbn [requests flat_map];
              split; [tauto|split; [reflexivity|discriminate]] ].
Qed.

(** X10.  The handlers never take back [blockchain_loaded] or
    [wallets_updated], never touch the snapshot, and keep the order of
    the start-up: once the wallets count as up to date the block chain
    counts as loaded.  The wallets start to count as up to date only when
    every wallet of the daemon is, and then ['network_updated'] is
    triggered. *)
Theorem handlers_keep_startup_order :
  forall (ev : bus_event) (s : MNList),
    let s' := fst (handle ev s) in
    (blockchain_loaded s = true -> blockchain_loaded s' = true)
    /\ (wallets_updated s = true -> wallets_updated s' = true)
    /\ ((wallets_updated s = true -> blockchain_loaded s = true) ->
        wallets_updated s' = true -> blockchain_loaded s' = true)
    /\ (wallets_updated s = false -> wallets_updated s' = true ->
        (exists wallets,
            (ev = WalletUpdated wallets
             \/ exists chain_complete, ev = BchainUpdated chain_complete wallets)
            /\ forallb (fun up_to_date => up_to_date) wallets = true)
        /\ In (Trigger "network_updated") (snd (handle ev s)))
    /\ snapshot s' = snapshot s
    /\ load_mns s' = load_mns s
    /\ network s' = network s.
Proof.
  intros ev s.
  destruct ev as [conn|cc ws|ws|cc| |status]; cbn [handle].
  - unfold on_network_status.
    destruct (wallets_updated s) eqn:W; cbn [negb];
      [destruct (negb (dash_net_enabled s) && conn && protx_loading s)|];
      cbn [fst snd]; rewrite ?W; repeat split; auto; discriminate.
  - unfold on_bchain_updated, on_wallet_updated.
    destruct (blockchain_loaded s) eqn:B; destruct cc;
      cbn [negb andb blockchain_loaded wallets_updated
           set_blockchain_loaded];
      rewrite ?B; cbn [negb];
      destruct (wallets_updated s) eqn:W; cbn [negb];
      try destruct (forallb _ ws) eqn:F;
      cbn [fst snd blockchain_loaded wallets_updated set_wallets_updated
           set_blockchain_loaded snapshot protx_height llmq_height
           protx_mns sml_hashes quorums llmq_hashes load_mns network In];
      rewrite ?B, ?W;
      repeat split; auto; try discriminate; try tauto;
      try (intros; exists ws; split; [right; eexists; reflexivity|exact F]).
  - unfold on_wallet_updated.
    destruct (blockchain_loaded s) eqn:B; cbn [negb];
      destruct (wallets_updated s) eqn:W; cbn [negb];
      try destruct (forallb _ ws) eqn:F;
      cbn [fst snd blockchain_loaded wallets_updated set_wallets_updated
           snapshot protx_height llmq_height protx_mns sml_hashes quorums
           llmq_hashes load_mns network In];
      rewrite ?B, ?W;
      repeat split; auto; try discriminate; try tauto;
      try (intros; exists ws; split; [left; reflexivity|exact F]).
  - unfold on_network_updated.
    destruct (wallets_updated s) eqn:W; cbn [negb fst snd]; rewrite ?W;
      repeat split; auto; discriminate.
  - unfold on_network_error. cbn [fst snd].
    destruct (wallets_updated s) eqn:W; repeat split; auto; discriminate.
  - unfold on_dash_net_updated.
    destruct (String.eqb status "enabled");
      [|destruct (String.eqb status "disabled")];
      cbn [wallets_updated set_dash_net_enabled];
      destruct (wallets_updated s) eqn:W; cbn [negb fst snd];
      cbn [blockchain_loaded wallets_updated set_dash_net_enabled snapshot
           protx_height llmq_height protx_mns sml_hashes quorums
           llmq_hashes load_mns network];
      rewrite ?W; repeat split; auto; discriminate.
Qed.

(** ** The diff handlers after the checks of the request *)

Lemma save_recent_list_frame (w : World) :
  exists w',
    _save_recent_list w = (Ok tt, w')
    /\ self w' = self w /\ events w' = events w.
Proof.
  unfold _save_recent_list.
  cbv beta iota delta [bindM get_self ret raise lift try_except
                         gzip_write_json get_fs put_fs].
  destruct (str_truthy (config_path (self w))); cbn [negb];
    [|exists w; auto].
  destruct (recent_list_document (the_recent_list w)); [|exists w; auto].
  destruct (fs_writable (fs w) _); [|exists w; auto].
  eexists. split; [reflexivity|]. split; reflexivity.
Qed.

Lemma forget_protx_info_frame (w : World) :
  exists w',
    forget_protx_info w = (Ok tt, w')
    /\ snapshot (self w') = snapshot (self w)
    /\ protx_state (self w') = protx_state (self w)
    /\ diff_deleted_mns (self w') = diff_deleted_mns (self w)
    /\ diff_hashes (self w') = diff_hashes (self w)
    /\ dash_net_enabled (self w') = dash_net_enabled (self w)
    /\ load_mns (self w') = load_mns (self w)
    /\ network (self w') = network (self w)
    /\ events w' = events w.
Proof.
  destruct_world w. eexists.
  split; [lazy -[fold_left filter dict_del str_in negb fst]; reflexivity|].
  repeat split.
Qed.

Lemma notify_diff_updated (w : World) :
  exists w',
    notify "mn-list-diff-updated" w = (Ok tt, w')
    /\ events w'
       = TriggerCallback "mn-list-diff-updated"
           (CbDiff (protx_state (self w)) (diff_deleted_mns (self w))
                   (diff_hashes (self w))) :: events w
    /\ diff_deleted_mns (self w') = []
    /\ diff_hashes (self w') = []
    /\ snapshot (self w') = snapshot (self w).
Proof.
  destruct_world w. eexists. split; [lazy; reflexivity|]. repeat split.
Qed.

Lemma notify_network_error (w : World) :
  notify "network-error" w
  = (Ok tt, {| self := self w; default_mn_list := default_mn_list w;
               fs := fs w; clock := clock w;
               events := TriggerCallback "network-error" CbNone
                           :: events w |}).
Proof. reflexivity. Qed.

(** The world once the pending request has been taken from its queue. *)
Lemma dequeued_getmnlistd (w : World) :
  modify (set_sent_getmnlistd None) w
  = (Ok tt, {| self := set_sent_getmnlistd None (self w);
               default_mn_list := default_mn_list w;
               fs := fs w; clock := clock w; events := events w |}).
Proof. reflexivity. Qed.

Lemma dequeued_protx_diff (w : World) :
  modify (set_sent_protx_diff None) w
  = (Ok tt, {| self := set_sent_protx_diff None (self w);
               default_mn_list := default_mn_list w;
               fs := fs w; clock := clock w; events := events w |}).
Proof. reflexivity. Qed.

Section HandlerFacts.

Context {S : Type} `{BCDataStream S} `{SPV}.



End HandlerFacts.



(** ** Looking up masternodes *)

Lemma find_last (A : Type) (p : A -> bool) (l : list A) (a : A) :
  find p (rev (a :: l))
  = match find p (rev l) with
    | Some x => Some x
    | None => if p a then Some a else None
    end.
Proof.
  cbn [rev]. induction (rev l) as [|x r IH]; simpl; [reflexivity|].
  destruct (p x); [reflexivity | exact IH].
Qed.

Section InfoFacts.

Context `{Formatting}.

Lemma back_info_mapping_get (items : list (string * json))
      (acc m : dict string) (o : string) :
  back_info_mapping items acc = Ok m ->
  dict_get m o
  = match find (has_outpoint o) (rev items) with
    | Some item => Some (fst item)
    | None => dict_get acc o
    end.
Proof.
  revert acc. induction items as [|[h info] items IH]; intros acc E.
  - cbn in E. now injection E as <-.
  - cbn [back_info_mapping] in E.
    destruct (info_outpoint info) as [o'|e] eqn:Eo; cbn [bind] in E;
      [|discriminate].
    rewrite (IH _ E), find_last.
    destruct (find (has_outpoint o) (rev items)); [reflexivity|].
    unfold has_outpoint. cbn [snd fst]. rewrite Eo.
    destruct (String.eqb_spec o' o) as [->|Hne].
    + apply dict_get_set_same.
    + now apply dict_get_set_other.
Qed.

Lemma back_info_mapping_ok (items : list (string * json))
      (acc m : dict string) :
  back_info_mapping items acc = Ok m -> dict_ok acc -> dict_ok m.
Proof.
  revert acc. induction items as [|[h info] items IH]; intros acc E Hok.
  - cbn in E. now injection E as <-.
  - cbn [back_info_mapping] in E.
    destruct (info_outpoint info) as [o'|e]; cbn [bind] in E; [|discriminate].
    eapply IH; [exact E|]. now apply dict_set_ok.
Qed.

Lemma back_info_mapping_runs (items : list (string * json))
      (acc : dict string) :
  (exists m, back_info_mapping items acc = Ok m)
  <-> Forall (fun item => exists d, snd item = JDict d) items.
Proof.
  revert acc. induction items as [|[h info] items IH]; intros acc.
  - split; [constructor | eexists; reflexivity].
  - cbn [back_info_mapping]. split.
    + intros [m E]. destruct info; try discriminate.
      constructor; [eexists; reflexivity|].
      cbn [info_outpoint info_get bind] in E.
      eapply IH. eexists. exact E.
    + intros F. inversion F as [|? ? [d Hd] F']; subst.
      cbn [snd] in Hd. subst info. cbn [info_outpoint info_get bind].
      now apply IH.
Qed.

(** X13.  [do_back_info_mapping] succeeds exactly when every stored
    information is a dictionary (else [info.get] raises).  The mapping it
    returns has no key twice and sends an outpoint to the hash of the
    last entry of [protx_info] whose information has that outpoint, and
    nothing else; with that mapping in [mns_outpoints],
    [get_mn_by_outpoint] returns the masternode stored under that hash,
    and [None] for an outpoint of no entry or for an empty hash. *)
Theorem do_back_info_mapping_last_wins :
  forall (s : MNList),
    ((exists m, do_back_info_mapping s = Ok m)
     <-> Forall (fun item => exists d, snd item = JDict d) (protx_info s))
    /\ forall m,
        do_back_info_mapping s = Ok m ->
        dict_ok m
        /\ (forall o,
               dict_get m o
               = option_map fst
                   (find (has_outpoint o) (rev (protx_info s))))
        /\ (forall s' o,
               mns_outpoints s' = m ->
               get_mn_by_outpoint s' o
               = match find (has_outpoint o) (rev (protx_info s)) with
                 | Some item =>
                     if String.eqb (fst item) "" then None
                     else dict_get (protx_mns s') (fst item)
                 | None => None
                 end).
Proof.
  intros s. split; [apply back_info_mapping_runs|].
  intros m E. unfold do_back_info_mapping in E.
  assert (G : forall o,
             dict_get m o
             = option_map fst (find (has_outpoint o) (rev (protx_info s)))).
  { intros o. rewrite (back_info_mapping_get _ _ o E).
    now destruct (find _ _). }
  split; [eapply back_info_mapping_ok; [exact E | constructor]|].
  split; [exact G|].
  intros s' o Hm. unfold get_mn_by_outpoint. rewrite Hm, G.
  now destruct (find _ _).
Qed.

(** X14.  [process_info] returns the keys of [protx_mns] for which
    [protx_info] has no entry, each once when [protx_mns] has no key
    twice; it raises when a stored information is not a dictionary. *)
Theorem process_info_missing :
  forall (s : MNList),
    (Forall (fun item => exists d, snd item = JDict d) (protx_info s) ->
     exists missing,
       process_info s = Ok missing
       /\ (forall h, In h missing
                     <-> In h (dict_keys (protx_mns s))
                         /\ dict_get (protx_info s) h = None)
       /\ (dict_ok (protx_mns s) -> NoDup missing))
    /\ (~ Forall (fun item => exists d, snd item = JDict d) (protx_info s) ->
        exists e, process_info s = Raise e).
Proof.
  intros s. unfold process_info. split.
  - intros F. apply back_info_mapping_runs with (acc := []) in F.
    destruct F as [m E]. unfold do_back_info_mapping, dict_items. rewrite E.
    cbn [bind]. eexists. split; [reflexivity|]. split.
    + intros h. rewrite filter_In. unfold dict_mem.
      destruct (dict_get (protx_info s) h); cbn [negb].
      * split; [intros [_ D]; discriminate | intros [_ D]; discriminate].
      * tauto.
    + intros Hok. now apply NoDup_filter.
  - intros NF. unfold do_back_info_mapping, dict_items.
    destruct (back_info_mapping (protx_info s) []) as [m|e] eqn:E.
    + exfalso. apply NF. eapply back_info_mapping_runs. eexists. exact E.
    + exists e. reflexivity.
Qed.

End InfoFacts.

Lemma do_back_info_mapping_last_wins_witness :
  @do_back_info_mapping SampleFormat.formatting SampleInfo.engine
  = Ok (mns_outpoints SampleInfo.engine)
  /\ get_mn_by_outpoint SampleInfo.engine "c9:9" = None.
Proof.
  split; [reflexivity|].
  destruct (@do_back_info_mapping_last_wins SampleFormat.formatting
              SampleInfo.engine) as [_ Hm].
  destruct (Hm (mns_outpoints SampleInfo.engine) eq_refl) as (_ & _ & Hg).
  rewrite (Hg SampleInfo.engine "c9:9"%string eq_refl). reflexivity.
Defined.

Lemma process_info_missing_witness :
  exists missing,
    @process_info SampleFormat.formatting SampleInfo.engine = Ok missing
    /\ (forall h, In h missing
                  <-> In h (dict_keys (protx_mns SampleInfo.engine))
                      /\ dict_get (protx_info SampleInfo.engine) h = None)
    /\ (dict_ok (protx_mns SampleInfo.engine) -> NoDup missing).
Proof.
  apply (@process_info_missing SampleFormat.formatting SampleInfo.engine).
  repeat constructor; eexists; reflexivity.
Defined.

(** X15.  [get_random_mn] returns [None] exactly when no stored masternode
    is valid; what it returns is a stored masternode that is valid, and
    every valid stored masternode is returned for some draw. *)
Theorem get_random_mn_valid :
  forall (s : MNList),
    (forall draw,
        match get_random_mn draw s with
        | Some e => In e (dict_values (protx_mns s)) /\ isValid e = true
        | None =>
            forall e, In e (dict_values (protx_mns s)) -> isValid e = false
        end)
    /\ (forall e, In e (dict_values (protx_mns s)) -> isValid e = true ->
                  exists draw, get_random_mn draw s = Some e).
Proof.
  intros s. unfold get_random_mn, get_random_mn_candidates.
  set (valid := filter isValid (dict_values (protx_mns s))).
  assert (Hv : forall e, In e valid
                         <-> In e (dict_values (protx_mns s))
                             /\ isValid e = true)
    by (intros e; apply filter_In).
  split.
  - intros draw. destruct valid as [|e0 rest] eqn:Ev.
    + intros e Hin. destruct (isValid e) eqn:Ei; [|reflexivity].
      exfalso. rewrite <- Ev in Hv. assert (Hf : In e valid) by (apply Hv; auto).
      rewrite Ev in Hf. destruct Hf.
    + apply Hv. apply nth_In. apply Nat.mod_upper_bound. discriminate.
  - intros e Hin Hval. assert (Hf : In e valid) by (apply Hv; auto).
    destruct valid as [|e0 rest] eqn:Ev; [destruct Hf|].
    destruct (In_nth _ _ e0 Hf) as (n & Hn & Hnth).
    exists n. rewrite Nat.mod_small by exact Hn. now rewrite Hnth.
Qed.

(** ** Content hashes stay with their maps *)

Section ContentHashes.

Variable A : Type.
Variable serialize : A -> bytes.

Lemma content_hashes_mem (d : dict A) (k : string) :
  dict_mem (content_hashes serialize d) k = dict_mem d k.
Proof.
  unfold dict_mem, content_hashes.
  rewrite (dict_get_map_values (fun v => sha256d (serialize v))).
  now destruct (dict_get d k).
Qed.

Lemma content_hashes_del (d : dict A) (k : string) :
  dict_del (content_hashes serialize d) k
  = content_hashes serialize (dict_del d k).
Proof.
  induction d as [|[k0 v0] d IH]; [reflexivity|].
  cbn [content_hashes map dict_del fst snd].
  destruct (String.eqb k k0); [reflexivity|].
  cbn [map fst snd]. f_equal. exact IH.
Qed.

Lemma content_hashes_set (d : dict A) (k : string) (v : A) :
  dict_set (content_hashes serialize d) k (sha256d (serialize v))
  = content_hashes serialize (dict_set d k v).
Proof.
  induction d as [|[k0 v0] d IH]; [reflexivity|].
  cbn [content_hashes map dict_set fst snd].
  destruct (String.eqb k k0); [reflexivity|].
  cbn [map fst snd]. f_equal. exact IH.
Qed.

End ContentHashes.

Lemma delete_mns_consistent (deleted : list string)
      (maps : dict DashSMLEntry * dict bytes) :
  snd maps = content_hashes sml_serialize (fst maps) ->
  snd (delete_mns deleted maps)
  = content_hashes sml_serialize (fst (delete_mns deleted maps)).
Proof.
  unfold delete_mns. revert maps.
  induction deleted as [|h l IH]; intros [m hs] E; [exact E|].
  cbn [fold_left]. apply IH. cbn [fst snd] in *. subst hs.
  rewrite content_hashes_mem.
  destruct (dict_mem m h); [apply content_hashes_del | reflexivity].
Qed.

Lemma insert_mns_consistent (entries : list (string * DashSMLEntry))
      (maps : dict DashSMLEntry * dict bytes) :
  snd maps = content_hashes sml_serialize (fst maps) ->
  snd (insert_mns entries maps)
  = content_hashes sml_serialize (fst (insert_mns entries maps)).
Proof.
  unfold insert_mns. revert maps.
  induction entries as [|[k e] l IH]; intros [m hs] E; [exact E|].
  cbn [fold_left]. apply IH. cbn [fst snd] in *. subst hs.
  apply content_hashes_set.
Qed.

Lemma delete_quorums_consistent (deleted : list DashDeletedQuorum)
      (maps : dict DashQFCommitMsg * dict bytes) :
  snd maps = content_hashes qf_serialize (fst maps) ->
  snd (delete_quorums deleted maps)
  = content_hashes qf_serialize (fst (delete_quorums deleted maps)).
Proof.
  unfold delete_quorums. revert maps.
  induction deleted as [|dq l IH]; intros [m hs] E; [exact E|].
  cbn [fold_left]. apply IH. cbn [fst snd] in *. subst hs.
  rewrite content_hashes_mem.
  destruct (dict_mem m _); [apply content_hashes_del | reflexivity].
Qed.

Lemma insert_quorums_consistent (new_quorums : list DashQFCommitMsg)
      (maps : dict DashQFCommitMsg * dict bytes) :
  snd maps = content_hashes qf_serialize (fst maps) ->
  snd (insert_quorums new_quorums maps)
  = content_hashes qf_serialize (fst (insert_quorums new_quorums maps)).
Proof.
  unfold insert_quorums. revert maps.
  induction new_quorums as [|nq l IH]; intros [m hs] E; [exact E|].
  cbn [fold_left]. apply IH. cbn [fst snd] in *. subst hs.
  apply content_hashes_set.
Qed.



(** ** Diff processing keeps the hash maps consistent *)

Section KeepsHashes.

Variables A B : Type.

Lemma keeps_ret (a : A) (Q : A -> Prop) : Q a -> keeps_hashes (ret a) Q.
Proof.
  intros HQ w r w' Hc E. injection E as <- <-.
  split; [exact Hc|]. intros a' [= <-]. exact HQ.
Qed.

Lemma keeps_raise (e : exn) (Q : A -> Prop) : keeps_hashes (raise e) Q.
Proof.
  intros w r w' Hc E. injection E as <- <-.
  split; [exact Hc | discriminate].
Qed.

Lemma keeps_lift (r : result A) : keeps_hashes (lift r) (fun a => r = Ok a).
Proof.
  intros w r' w' Hc E. injection E as <- <-.
  split; [exact Hc | auto].
Qed.

Lemma keeps_local (v : option A) : keeps_hashes (local v) (fun a => v = Some a).
Proof.
  destruct v as [a|]; [apply keeps_ret; reflexivity | apply keeps_raise].
Qed.

Lemma keeps_true (m : M A) (Q : A -> Prop) :
  keeps_hashes m Q -> keeps_hashes m (fun _ => True).
Proof.
  intros Hm w r w' Hc E. split; [exact (proj1 (Hm _ _ _ Hc E)) | auto].
Qed.

Lemma keeps_bind (m : M A) (k : A -> M B) (Q : A -> Prop) (R : B -> Prop) :
  keeps_hashes m Q ->
  (forall a, Q a -> keeps_hashes (k a) R) ->
  keeps_hashes (bindM m k) R.
Proof.
  intros Hm Hk w r w' Hc E. unfold bindM in E.
  destruct (m w) as [[a|e] w1] eqn:Em.
  - destruct (Hm _ _ _ Hc Em) as [Hc1 HQ].
    exact (Hk a (HQ a eq_refl) _ _ _ Hc1 E).
  - injection E as <- <-. destruct (Hm _ _ _ Hc Em) as [Hc1 _].
    split; [exact Hc1 | discriminate].
Qed.

Lemma keeps_then (m : M A) (k : A -> M B) (R : B -> Prop) :
  keeps_hashes m (fun _ => True) ->
  (forall a, keeps_hashes (k a) R) ->
  keeps_hashes (bindM m k) R.
Proof. intros Hm Hk. apply keeps_bind with (Q := fun _ => True); auto. Qed.

Lemma keeps_try_except (body : M A) (handler : exn -> M A) (Q : A -> Prop) :
  keeps_hashes body Q ->
  (forall e, keeps_hashes (handler e) Q) ->
  keeps_hashes (try_except body handler) Q.
Proof.
  intros Hb Hh w r w' Hc E. unfold try_except in E.
  destruct (body w) as [[a|e] w1] eqn:Eb.
  - injection E as <- <-. exact (Hb _ _ _ Hc Eb).
  - exact (Hh e _ _ _ (proj1 (Hb _ _ _ Hc Eb)) E).
Qed.

Lemma keeps_with_world (F : World -> M A) (Q : A -> Prop) :
  (forall w0, keeps_hashes (F w0) Q) ->
  keeps_hashes (fun w => F w w) Q.
Proof. intros HF w r w' Hc E. exact (HF w _ _ _ Hc E). Qed.

End KeepsHashes.

Lemma keeps_get_self : keeps_hashes get_self hashes_consistent.
Proof.
  intros w r w' Hc E. injection E as <- <-.
  split; [exact Hc|]. intros a [= <-]. exact Hc.
Qed.

Lemma keeps_modify (f : MNList -> MNList) :
  (forall s, hashes_consistent s -> hashes_consistent (f s)) ->
  keeps_hashes (modify f) (fun _ => True).
Proof.
  intros Hf w r w' Hc E. injection E as <- <-.
  split; [exact (Hf _ Hc) | auto].
Qed.

Lemma keeps_rl_set (k : string) (v : rl_value) :
  keeps_hashes (rl_set k v) (fun _ => True).
Proof.
  intros w r w' Hc E. injection E as <- <-.
  split; [|auto]. cbn [self]. destruct (self w). exact Hc.
Qed.

Lemma keeps_emit (e : event) : keeps_hashes (emit e) (fun _ => True).
Proof.
  intros w r w' Hc E. injection E as <- <-. split; [exact Hc | auto].
Qed.

Lemma keeps_get_fs : keeps_hashes get_fs (fun _ => True).
Proof.
  intros w r w' Hc E. injection E as <- <-. split; [exact Hc | auto].
Qed.

Lemma keeps_put_fs (f : FS) : keeps_hashes (put_fs f) (fun _ => True).
Proof.
  intros w r w' Hc E. injection E as <- <-. split; [exact Hc | auto].
Qed.

Lemma keeps_get_clock : keeps_hashes get_clock (fun _ => True).
Proof.
  intros w r w' Hc E. injection E as <- <-. split; [exact Hc | auto].
Qed.

(** One step of a body that never touches the four maps. *)
Ltac keeps_step :=
  lazymatch goal with
  | |- keeps_hashes (bindM get_self _) _ =>
      eapply keeps_bind; [apply keeps_get_self | intros ? ?]
  | |- keeps_hashes (bindM _ _) _ =>
      apply keeps_then; [| intros ?]
  | |- keeps_hashes (ret _) _ => apply keeps_ret; exact I
  | |- keeps_hashes (raise _) _ => apply keeps_raise
  | |- keeps_hashes (lift _) _ => eapply keeps_true; apply keeps_lift
  | |- keeps_hashes (local _) _ => eapply keeps_true; apply keeps_local
  | |- keeps_hashes get_self _ => eapply keeps_true; apply keeps_get_self
  | |- keeps_hashes (modify _) _ =>
      apply keeps_modify; intros [] Hs; exact Hs
  | |- keeps_hashes (rl_set _ _) _ => apply keeps_rl_set
  | |- keeps_hashes (emit _) _ => apply keeps_emit
  | |- keeps_hashes get_fs _ => apply keeps_get_fs
  | |- keeps_hashes (put_fs _) _ => apply keeps_put_fs
  | |- keeps_hashes get_clock _ => apply keeps_get_clock
  | |- keeps_hashes (try_except _ _) _ =>
      apply keeps_try_except; [| intros ?]
  | |- keeps_hashes (if ?c then _ else _) _ => destruct c
  | |- keeps_hashes (match ?c with Some _ => _ | None => _ end) _ =>
      destruct c
  end.

Lemma keeps_gzip_write_json (path : string) (doc : json) :
  keeps_hashes (gzip_write_json path doc) (fun _ => True).
Proof. unfold gzip_write_json. repeat keeps_step. Qed.

Lemma keeps_save_recent_list : keeps_hashes _save_recent_list (fun _ => True).
Proof.
  unfold _save_recent_list. do 2 keeps_step; [keeps_step|].
  keeps_step; [|keeps_step].
  apply keeps_with_world
    with (F := fun w0 => doc <~ lift (recent_list_document
                                        (the_recent_list w0)) ;;
                         gzip_write_json _ doc).
  intros w0. keeps_step; [keeps_step | apply keeps_gzip_write_json].
Qed.

Lemma keeps_save_protx_info (force : bool) :
  keeps_hashes (_save_protx_info force) (fun _ => True).
Proof.
  unfold _save_protx_info. do 2 keeps_step; [keeps_step|].
  keeps_step; [keeps_step|]. keeps_step; [keeps_step|].
  keeps_step; [|keeps_step].
  keeps_step; [apply keeps_gzip_write_json | keeps_step].
Qed.

Lemma keeps_notify (key : string) : keeps_hashes (notify key) (fun _ => True).
Proof.
  unfold notify. keeps_step. keeps_step; [|keeps_step].
  repeat keeps_step.
Qed.

Lemma keeps_forget_protx_info : keeps_hashes forget_protx_info (fun _ => True).
Proof. unfold forget_protx_info. repeat keeps_step. Qed.

(** The three assignments that replace a map and its hash map. *)
Lemma keeps_set_mns (B : Type) (maps : dict DashSMLEntry * dict bytes)
      (k : string) (v : rl_value) (rest : M B) (R : B -> Prop) :
  snd maps = content_hashes sml_serialize (fst maps) ->
  keeps_hashes rest R ->
  keeps_hashes
    (modify (set_protx_mns (fst maps)) ;;; rl_set k v ;;;
     modify (set_sml_hashes (snd maps)) ;;; rest) R.
Proof.
  intros Hmaps Hrest w r w' Hc E.
  refine (Hrest
            (snd ((modify (set_protx_mns (fst maps)) ;;; rl_set k v ;;;
                   modify (set_sml_hashes (snd maps))) w)) r w' _ E).
  destruct w as [s d f c ev]. destruct s.
  split; [exact Hmaps | exact (proj2 Hc)].
Qed.

Lemma keeps_set_quorums (B : Type) (maps : dict DashQFCommitMsg * dict bytes)
      (k : string) (v : rl_value) (rest : M B) (R : B -> Prop) :
  snd maps = content_hashes qf_serialize (fst maps) ->
  keeps_hashes rest R ->
  keeps_hashes
    (modify (set_quorums (fst maps)) ;;; rl_set k v ;;;
     modify (set_llmq_hashes (snd maps)) ;;; rest) R.
Proof.
  intros Hmaps Hrest w r w' Hc E.
  refine (Hrest
            (snd ((modify (set_quorums (fst maps)) ;;; rl_set k v ;;;
                   modify (set_llmq_hashes (snd maps))) w)) r w' _ E).
  destruct w as [s d f c ev]. destruct s.
  split; [exact (proj1 Hc) | exact Hmaps].
Qed.

Lemma mnlistdiff_commit_consistent (base_height height : Z)
      (diff : MNListDiff)
      (mns_new : option (dict DashSMLEntry * dict bytes))
      (quorums_new : option (dict DashQFCommitMsg * dict bytes)) :
  (forall m, mns_new = Some m ->
             snd m = content_hashes sml_serialize (fst m)) ->
  (forall q, quorums_new = Some q ->
             snd q = content_hashes qf_serialize (fst q)) ->
  keeps_hashes
    (mnlistdiff_commit base_height height diff mns_new quorums_new)
    (fun _ => True).
Proof.
  intros Hmn Hqn. unfold mnlistdiff_commit. cbv zeta.
  keeps_step; [unfold mns_cond; repeat keeps_step|].
  keeps_step.
  - keeps_step.
    + do 2 (keeps_step; [keeps_step|]).
      eapply keeps_bind; [apply keeps_local|]. intros m Hm.
      apply keeps_set_mns; [exact (Hmn m Hm) | repeat keeps_step].
    + repeat keeps_step.
  - keeps_step; [unfold llmq_cond; repeat keeps_step|].
    keeps_step; [|keeps_step].
    do 2 (keeps_step; [keeps_step|]).
    eapply keeps_bind; [apply keeps_local|]. intros q Hq.
    apply keeps_set_quorums; [exact (Hqn q Hq) | keeps_step].
Qed.

Lemma protx_diff_commit_consistent (diff : ProtxDiff) (cbtx_extra : DashCbTx)
      (maps : dict DashSMLEntry * dict bytes) :
  snd maps = content_hashes sml_serialize (fst maps) ->
  keeps_hashes (protx_diff_commit diff cbtx_extra maps) (fun _ => True).
Proof.
  intros Hmaps. unfold protx_diff_commit. cbv zeta.
  apply keeps_set_mns; [exact Hmaps | repeat keeps_step].
Qed.

Lemma keeps_mnlistdiff_classical (height : Z) :
  keeps_hashes (mnlistdiff_classical height) (fun _ => True).
Proof. unfold mnlistdiff_classical. repeat keeps_step. Qed.

Lemma keeps_protx_diff_classical (height : Z) :
  keeps_hashes (protx_diff_classical height) (fun _ => True).
Proof. unfold protx_diff_classical. repeat keeps_step. Qed.

Lemma keeps_mns_cond (base_height : Z) :
  keeps_hashes (mns_cond base_height) (fun _ => True).
Proof. unfold mns_cond. repeat keeps_step. Qed.

Lemma keeps_llmq_cond (base_height height : Z) :
  keeps_hashes (llmq_cond base_height height) (fun _ => True).
Proof. unfold llmq_cond. repeat keeps_step. Qed.

Section KeepsEngine.

Context {S : Type} `{BCDataStream S} `{SPV}.

Lemma keeps_process_mnlistdiff (base_height height : Z) (diff : MNListDiff) :
  keeps_hashes (process_mnlistdiff base_height height diff) (fun _ => True).
Proof.
  unfold process_mnlistdiff.
  keeps_step; [|apply keeps_mnlistdiff_classical].
  keeps_step; [keeps_step|]. keeps_step; [keeps_step|].
  keeps_step; [apply keeps_mns_cond|]. rename a into c1.
  keeps_step. rename a into s1.
  keeps_step; [apply keeps_llmq_cond|]. rename a into c2.
  keeps_step. rename a into s2.
  keeps_step; [apply keeps_mns_cond|].
  keeps_step.
  { keeps_step; [|keeps_step]. repeat keeps_step. }
  keeps_step; [keeps_step|].
  keeps_step; [apply keeps_llmq_cond|].
  keeps_step.
  { keeps_step; [|keeps_step]. repeat keeps_step. }
  keeps_step; [keeps_step|].
  keeps_step. keeps_step; [keeps_step|].
  keeps_step; [keeps_step|].
  keeps_step; [|keeps_step].
  apply mnlistdiff_commit_consistent.
  - destruct c1; intros m [= <-]. unfold mnlistdiff_mns_new.
    apply insert_mns_consistent, delete_mns_consistent.
    cbn [fst snd]. apply H1.
  - destruct c2; intros q [= <-]. unfold mnlistdiff_quorums_new.
    apply insert_quorums_consistent, delete_quorums_consistent.
    cbn [fst snd]. apply H2.
Qed.

Lemma keeps_process_protx_diff (base_height height : Z) (diff : ProtxDiff) :
  keeps_hashes (process_protx_diff base_height height diff) (fun _ => True).
Proof.
  unfold process_protx_diff. keeps_step; [keeps_step|]. rename a into cbtx.
  keeps_step; [|apply keeps_protx_diff_classical].
  keeps_step; [keeps_step|]. keeps_step; [keeps_step|].
  keeps_step. rename a into s1.
  keeps_step; [keeps_step|]. rename a into entries.
  keeps_step; [keeps_step|].
  keeps_step; [keeps_step|].
  keeps_step. keeps_step; [keeps_step|].
  keeps_step; [keeps_step|].
  keeps_step; [|keeps_step].
  apply protx_diff_commit_consistent. unfold protx_diff_mns_new.
  apply insert_mns_consistent, delete_mns_consistent.
  cbn [fst snd]. apply H1.
Qed.

Lemma keeps_on_mnlistdiff (value : DiffValue MNListDiff) :
  keeps_hashes (on_mnlistdiff value) (fun _ => True).
Proof.
  unfold on_mnlistdiff. keeps_step. keeps_step; [|keeps_step].
  keeps_step; [keeps_step|]. keeps_step; [keeps_step|].
  keeps_step. keeps_step; [keeps_step|].
  keeps_step; [apply keeps_notify|].
  keeps_step; [apply keeps_process_mnlistdiff|].
  keeps_step; [|keeps_step].
  keeps_step; [apply keeps_forget_protx_info|].
  keeps_step. keeps_step; [repeat keeps_step|].
  keeps_step; [apply keeps_save_recent_list | apply keeps_notify].
Qed.

Lemma keeps_on_protx_diff (value : DiffValue ProtxDiff) :
  keeps_hashes (on_protx_diff value) (fun _ => True).
Proof.
  unfold on_protx_diff. keeps_step. keeps_step; [|keeps_step].
  keeps_step; [keeps_step|]. keeps_step; [keeps_step|].
  keeps_step. keeps_step; [keeps_step|].
  keeps_step; [apply keeps_notify|].
  keeps_step; [apply keeps_process_protx_diff|].
  keeps_step; [|keeps_step].
  keeps_step; [apply keeps_forget_protx_info|].
  keeps_step. keeps_step; [repeat keeps_step|].
  keeps_step; [apply keeps_save_recent_list | apply keeps_notify].
Qed.

End KeepsEngine.

Lemma keeps_reset_tail :
  keeps_hashes
    (_save_recent_list ;;;
     _save_protx_info true ;;;
     modify (set_protx_state DIP3_UNKNOWN) ;;;
     modify (set_diff_deleted_mns []) ;;;
     modify (set_diff_hashes []) ;;;
     notify "mn-list-diff-updated" ;;;
     s <~ get_self ;;
     if dash_net_enabled s then emit (GetMNListD false)
     else emit RequestProtxDiff)
    (fun _ => True).
Proof.
  keeps_step; [apply keeps_save_recent_list|].
  keeps_step; [apply keeps_save_protx_info|].
  do 3 (keeps_step; [keeps_step|]).
  keeps_step; [apply keeps_notify|].
  repeat keeps_step.
Qed.

Lemma keeps_outcome (A : Type) (m : M A) (Q : A -> Prop) (w : World) :
  keeps_hashes m Q ->
  hashes_consistent (self w) ->
  hashes_consistent (self (snd (m w))).
Proof.
  intros Hm Hc. destruct (m w) as [r w'] eqn:E.
  exact (proj1 (Hm _ _ _ Hc E)).
Qed.

Lemma handle_consistent (ev : bus_event) (s : MNList) :
  hashes_consistent s -> hashes_consistent (fst (handle ev s)).
Proof.
  intros Hc. destruct s.
  destruct ev; cbn [handle];
    unfold on_network_status, on_bchain_updated, on_wallet_updated,
           on_network_updated, on_network_error, on_dash_net_updated;
    cbv zeta;
    repeat match goal with
           | |- context [if ?c then _ else _] => destruct c
           end;
    exact Hc.
Qed.

Section Invariant.

Context {S : Type} `{BCDataStream S} `{SPV}.


End Invariant.


Lemma save_protx_info_frame (force : bool) (w : World) :
  exists w',
    _save_protx_info force w = (Ok tt, w')
    /\ (self w' = self w
        \/ self w' = set_last_protx_info_save_time (clock w) (self w))
    /\ events w' = events w.
Proof.
  unfold _save_protx_info.
  cbv beta iota delta [bindM get_self ret raise lift try_except modify
                         gzip_write_json get_fs put_fs get_clock].
  destruct (str_truthy (config_path (self w))); cbn [negb];
    [|exists w; auto].
  destruct (_ && _); [exists w; auto|].
  destruct (fs_writable (fs w) _); [|exists w; auto].
  eexists. split; [reflexivity|]. split; [right|]; reflexivity.
Qed.

Lemma notify_diff_updated_run (w : World) :
  notify "mn-list-diff-updated" w
  = (Ok tt,
     {| self := set_diff_hashes [] (set_diff_deleted_mns [] (self w));
        default_mn_list := default_mn_list w;
        fs := fs w; clock := clock w;
        events := TriggerCallback "mn-list-diff-updated"
                    (CbDiff (protx_state (self w)) (diff_deleted_mns (self w))
                            (diff_hashes (self w)))
                    :: events w |}).
Proof. reflexivity. Qed.

(** X18.  [reset] never raises.  It leaves both heights at 1, the four
    maps, [protx_info] and [mns_outpoints] empty (so the hash maps are
    with their maps), the state unknown and the pending lists empty; it
    triggers ['mn-list-diff-updated'] with the unknown state and two
    empty lists, and then asks for a [mnlistdiff] when the Dash network is
    enabled, for a [protx.diff] otherwise. *)
Theorem reset_outcome :
  forall (w : World),
    exists w',
      reset w = (Ok tt, w')
      /\ snapshot (self w') = (1, 1, [], [], [], [])
      /\ hashes_consistent (self w')
      /\ protx_info (self w') = []
      /\ mns_outpoints (self w') = []
      /\ protx_state (self w') = DIP3_UNKNOWN
      /\ diff_deleted_mns (self w') = []
      /\ diff_hashes (self w') = []
      /\ events w'
         = (if dash_net_enabled (self w) then GetMNListD false
            else RequestProtxDiff)
             :: TriggerCallback "mn-list-diff-updated"
                  (CbDiff DIP3_UNKNOWN [] [])
             :: events w.
Proof.
  intros w. destruct_world w. destruct g_fs as [files writable].
  destruct f_recent_list; destruct f_config_path as [[|c0 s0]|];
    lazy -[recent_list_document dict_set path_join Z.ltb Z.sub
           content_hashes];
    repeat (match goal with
            | |- context [recent_list_document ?d] =>
                destruct (recent_list_document d)
            | |- context [writable ?p] => destruct (writable p)
            | |- context [?a <? ?b] => destruct (a <? b)
            end;
            lazy -[recent_list_document dict_set path_join Z.ltb Z.sub
                   content_hashes]);
    destruct f_dash_net_enabled;
    (eexists; split; [reflexivity|]); repeat split.
Qed.
